(** * Alerting relay ([app.py]): a shallow embedding of the Flask handlers

    The module-level stores ([ALARM_STORE], [LATEST_RESULT_STORE]) are
    threaded explicitly through the handlers; the random identifier drawn by
    [uuid.uuid4()] and the clock read by [time.time()] are inputs of the
    handler that uses them.  Python strings are kept as their UTF-8 bytes. *)

From Stdlib Require Import List String Ascii ZArith Lia Bool DecimalString.
From Stdlib Require Import Floats.PrimFloat Floats.SpecFloat Floats.FloatOps.
From Stdlib Require Import Numbers.Cyclic.Int63.Uint63.
Import ListNotations.
Local Open Scope string_scope.
Local Set Warnings "-register-all,-inexact-float".

(** ** Python values as produced by [request.get_json] *)

Module Py.

(** A decoded JSON document: [None], [bool], [int], [float], [str], [list]
    and [dict] with string keys (insertion order kept). *)
Inductive Json : Type :=
| JNull
| JBool (b : bool)
| JInt (z : Z)
| JFloat (f : float)
| JStr (s : string)
| JList (l : list Json)
| JDict (d : list (string * Json)).

Definition dict := list (string * Json).

(** [bool(v)]: the truth value Python's [if], [not], [or] and [all] use.
    A float is false exactly when it compares equal to zero (either sign);
    NaN is true. *)
Definition truthy (v : Json) : bool :=
  match v with
  | JNull => false
  | JBool b => b
  | JInt z => negb (z =? 0)%Z
  | JFloat f => negb (PrimFloat.eqb f 0%float)
  | JStr s => negb (s =? "")
  | JList l => match l with [] => false | _ => true end
  | JDict d => match d with [] => false | _ => true end
  end.

(** [all([...])] *)
Definition all (vs : list bool) : bool := forallb (fun b => b) vs.

(** [x is not None] *)
Definition is_not_None (v : Json) : bool :=
  match v with JNull => false | _ => true end.

(** [v == s] for a string literal [s]: only a [str] equals a [str]. *)
Definition eq_str (v : Json) (s : string) : bool :=
  match v with JStr t => (t =? s) | _ => false end.

(** The entry stored under key [k], if any.  The keys of a Python dict are
    distinct; on a list that repeats a key the first entry is the one read. *)
Fixpoint lookup (k : string) (d : dict) : option Json :=
  match d with
  | [] => None
  | (k', v) :: d' => if k' =? k then Some v else lookup k d'
  end.

(** [type(v).__name__], as it appears in exception messages. *)
Definition type_name (v : Json) : string :=
  match v with
  | JNull => "NoneType"
  | JBool _ => "bool"
  | JInt _ => "int"
  | JFloat _ => "float"
  | JStr _ => "str"
  | JList _ => "list"
  | JDict _ => "dict"
  end.

(** The exceptions the handlers can raise on a decoded body. *)
Inductive exn : Type :=
| AttributeError (msg : string)
| TypeError (msg : string).

(** A computation that either raises or returns. *)
Definition M (A : Type) : Type := (exn + A)%type.

Definition ret {A} (a : A) : M A := inr a.
Definition raise {A} (e : exn) : M A := inl e.
Definition bind {A B} (m : M A) (k : A -> M B) : M B :=
  match m with
  | inl e => inl e
  | inr a => k a
  end.

(** [v.get(k, default)]: defined on a [dict] only; any other receiver has no
    attribute [get]. *)
Definition get (v : Json) (k : string) (default : Json) : M Json :=
  match v with
  | JDict d => ret (match lookup k d with Some x => x | None => default end)
  | _ => raise (AttributeError
                  ("'" ++ type_name v ++ "' object has no attribute 'get'"))
  end.

(** Reading an attribute that the type of [v] does not have. *)
Definition no_attribute {A} (v : Json) (name : string) : M A :=
  raise (AttributeError
           ("'" ++ type_name v ++ "' object has no attribute '" ++ name ++ "'")).

(** *** [repr] of a [float]

    Python prints the shortest decimal that reads back as the same binary64
    value and, among those, the one closest to it (ties to the even digit).
    The search below works on exact integers: the float is [m * 2^e], and
    [V], [LO], [HI] are the value and the two ends of its rounding interval
    in units of [2^(e-2)]. *)

(** Compare the decimal [D * 10^k] with the binary [X * 2^t]. *)
Definition cmp_dec_bin (D k X t : Z) : comparison :=
  (D * 10 ^ Z.max k 0 * 2 ^ Z.max (- t) 0
   ?= X * 2 ^ Z.max t 0 * 10 ^ Z.max (- k) 0)%Z.

(** [floor (X * 2^t / 10^k)] *)
Definition floor_dec (X t k : Z) : Z :=
  ((X * 2 ^ Z.max t 0 * 10 ^ Z.max (- k) 0)
   / (2 ^ Z.max (- t) 0 * 10 ^ Z.max k 0))%Z.

(** The largest [p] with [10^p <= X * 2^t]. *)
Definition ilog10 (X t : Z) : Z :=
  let p0 := ((Z.log2 X + t) * 30103 / 100000)%Z in
  match cmp_dec_bin 1 (p0 + 1) X t with
  | Gt =>
      match cmp_dec_bin 1 p0 X t with
      | Gt => (p0 - 1)%Z
      | _ => p0
      end
  | _ => (p0 + 1)%Z
  end.

Definition in_interval (closed : bool) (LO HI t D k : Z) : bool :=
  match cmp_dec_bin D k LO t, cmp_dec_bin D k HI t with
  | Gt, Lt => true
  | Eq, Lt | Gt, Eq => closed
  | _, _ => false
  end.

(** Try [n], [n+1], ... significant digits; the result is the digit string
    as an integer together with its decimal exponent. *)
Fixpoint shortest (fuel : nat) (n : Z) (closed : bool) (V LO HI t p : Z)
  : Z * Z :=
  let k := (p - n + 1)%Z in
  let lo := floor_dec V t k in
  let hi := (lo + 1)%Z in
  match fuel with
  | O => (lo, k)
  | S fuel' =>
      match in_interval closed LO HI t lo k, in_interval closed LO HI t hi k with
      | true, false => (lo, k)
      | false, true => (hi, k)
      | true, true =>
          match cmp_dec_bin (2 * lo + 1) k (2 * V) t with
          | Gt => (lo, k)
          | Lt => (hi, k)
          | Eq => if Z.even lo then (lo, k) else (hi, k)
          end
      | false, false => shortest fuel' (n + 1)%Z closed V LO HI t p
      end
  end.

(** Drop trailing zeros of the digit string. *)
Fixpoint strip_zeros (fuel : nat) (D k : Z) : Z * Z :=
  match fuel with
  | O => (D, k)
  | S fuel' =>
      if ((D mod 10 =? 0) && negb (D =? 0))%Z
      then strip_zeros fuel' (D / 10)%Z (k + 1)%Z
      else (D, k)
  end.

Definition digits (z : Z) : string := NilZero.string_of_uint (N.to_uint (Z.to_N z)).

Fixpoint zeros (n : nat) : string :=
  match n with
  | O => ""
  | S n' => String "0" (zeros n')
  end.

(** Layout of [repr]: positional for decimal points in [-3 .. 16], otherwise
    scientific with an exponent of at least two digits. *)
Definition float_layout (ds : string) (decpt : Z) : string :=
  let nd := String.length ds in
  if ((-4 <? decpt) && (decpt <=? 16))%Z then
    if (decpt <=? 0)%Z then "0." ++ zeros (Z.to_nat (- decpt)) ++ ds
    else if (Z.of_nat nd <=? decpt)%Z
         then ds ++ zeros (Z.to_nat decpt - nd) ++ ".0"
         else substring 0 (Z.to_nat decpt) ds ++ "."
              ++ substring (Z.to_nat decpt) (nd - Z.to_nat decpt) ds
  else
    let x := (decpt - 1)%Z in
    let xs := digits (Z.abs x) in
    substring 0 1 ds
    ++ (if Nat.ltb 1 nd then "." ++ substring 1 (nd - 1) ds else "")
    ++ "e" ++ (if (x <? 0)%Z then "-" else "+")
    ++ (if Nat.ltb (String.length xs) 2 then "0" ++ xs else xs).

Definition float_repr (f : float) : string :=
  match Prim2SF f with
  | S754_nan => "nan"
  | S754_infinity s => if s then "-inf" else "inf"
  | S754_zero s => if s then "-0.0" else "0.0"
  | S754_finite s m e =>
      let m := Zpos m in
      let V := (4 * m)%Z in
      let HI := (V + 2)%Z in
      let LO := if ((m =? 2 ^ 52) && (-1074 <? e))%Z then (V - 1)%Z else (V - 2)%Z in
      let t := (e - 2)%Z in
      let '(D, k) := shortest 17 1 (Z.even m) V LO HI t (ilog10 V t) in
      let '(D, k) := strip_zeros 20 D k in
      let ds := digits D in
      (if s then "-" else "")
      ++ float_layout ds (k + Z.of_nat (String.length ds))
  end.

(** *** [repr] and [str]

    [repr] of a [str] picks the quote and writes the string character by
    character: the backslash and the quote escaped, tab, line feed and
    carriage return as [\t], [\n], [\r], every other character that
    [str.isprintable] rejects as [\xNN], [\uNNNN] or [\UNNNNNNNN], and the
    rest as they are.  The string being kept as UTF-8 bytes, the characters
    are decoded on the way. *)

Definition quote1 : ascii := ascii_of_nat 39.
Definition quote2 : ascii := ascii_of_nat 34.
Definition backslash : ascii := ascii_of_nat 92.

Fixpoint contains_char (c : ascii) (s : string) : bool :=
  match s with
  | EmptyString => false
  | String a s' => Ascii.eqb a c || contains_char c s'
  end.

Definition hex_digit (n : nat) : ascii :=
  if Nat.ltb n 10 then ascii_of_nat (48 + n) else ascii_of_nat (87 + n).

(** [n] in lower-case hexadecimal, on [width] digits. *)
Fixpoint hex (width : nat) (n : Z) : string :=
  match width with
  | O => ""
  | S w => hex w (n / 16) ++ String (hex_digit (Z.to_nat (n mod 16))) ""
  end.

(** The code points from U+0080 up that [str.isprintable] rejects, as closed
    ranges in increasing order: the categories Cc, Cf, Cs, Co, Cn, Zl, Zp
    and Zs of Unicode 14.0.0, the character data of CPython 3.11. *)
Definition nonprintable : list (Z * Z) :=
  [(128, 160); (173, 173); (888, 889); (896, 899); (907, 907); (909, 909);
   (930, 930); (1328, 1328); (1367, 1368); (1419, 1420); (1424, 1424);
   (1480, 1487); (1515, 1518); (1525, 1541); (1564, 1564); (1757, 1757);
   (1806, 1807); (1867, 1868); (1970, 1983); (2043, 2044); (2094, 2095);
   (2111, 2111); (2140, 2141); (2143, 2143); (2155, 2159); (2191, 2199);
   (2274, 2274); (2436, 2436); (2445, 2446); (2449, 2450); (2473, 2473);
   (2481, 2481); (2483, 2485); (2490, 2491); (2501, 2502); (2505, 2506);
   (2511, 2518); (2520, 2523); (2526, 2526); (2532, 2533); (2559, 2560);
   (2564, 2564); (2571, 2574); (2577, 2578); (2601, 2601); (2609, 2609);
   (2612, 2612); (2615, 2615); (2618, 2619); (2621, 2621); (2627, 2630);
   (2633, 2634); (2638, 2640); (2642, 2648); (2653, 2653); (2655, 2661);
   (2679, 2688); (2692, 2692); (2702, 2702); (2706, 2706); (2729, 2729);
   (2737, 2737); (2740, 2740); (2746, 2747); (2758, 2758); (2762, 2762);
   (2766, 2767); (2769, 2783); (2788, 2789); (2802, 2808); (2816, 2816);
   (2820, 2820); (2829, 2830); (2833, 2834); (2857, 2857); (2865, 2865);
   (2868, 2868); (2874, 2875); (2885, 2886); (2889, 2890); (2894, 2900);
   (2904, 2907); (2910, 2910); (2916, 2917); (2936, 2945); (2948, 2948);
   (2955, 2957); (2961, 2961); (2966, 2968); (2971, 2971); (2973, 2973);
   (2976, 2978); (2981, 2983); (2987, 2989); (3002, 3005); (3011, 3013);
   (3017, 3017); (3022, 3023); (3025, 3030); (3032, 3045); (3067, 3071);
   (3085, 3085); (3089, 3089); (3113, 3113); (3130, 3131); (3141, 3141);
   (3145, 3145); (3150, 3156); (3159, 3159); (3163, 3164); (3166, 3167);
   (3172, 3173); (3184, 3190); (3213, 3213); (3217, 3217); (3241, 3241);
   (3252, 3252); (3258, 3259); (3269, 3269); (3273, 3273); (3278, 3284);
   (3287, 3292); (3295, 3295); (3300, 3301); (3312, 3312); (3315, 3327);
   (3341, 3341); (3345, 3345); (3397, 3397); (3401, 3401); (3408, 3411);
   (3428, 3429); (3456, 3456); (3460, 3460); (3479, 3481); (3506, 3506);
   (3516, 3516); (3518, 3519); (3527, 3529); (3531, 3534); (3541, 3541);
   (3543, 3543); (3552, 3557); (3568, 3569); (3573, 3584); (3643, 3646);
   (3676, 3712); (3715, 3715); (3717, 3717); (3723, 3723); (3748, 3748);
   (3750, 3750); (3774, 3775); (3781, 3781); (3783, 3783); (3790, 3791);
   (3802, 3803); (3808, 3839); (3912, 3912); (3949, 3952); (3992, 3992);
   (4029, 4029); (4045, 4045); (4059, 4095); (4294, 4294); (4296, 4300);
   (4302, 4303); (4681, 4681); (4686, 4687); (4695, 4695); (4697, 4697);
   (4702, 4703); (4745, 4745); (4750, 4751); (4785, 4785); (4790, 4791);
   (4799, 4799); (4801, 4801); (4806, 4807); (4823, 4823); (4881, 4881);
   (4886, 4887); (4955, 4956); (4989, 4991); (5018, 5023); (5110, 5111);
   (5118, 5119); (5760, 5760); (5789, 5791); (5881, 5887); (5910, 5918);
   (5943, 5951); (5972, 5983); (5997, 5997); (6001, 6001); (6004, 6015);
   (6110, 6111); (6122, 6127); (6138, 6143); (6158, 6158); (6170, 6175);
   (6265, 6271); (6315, 6319); (6390, 6399); (6431, 6431); (6444, 6447);
   (6460, 6463); (6465, 6467); (6510, 6511); (6517, 6527); (6572, 6575);
   (6602, 6607); (6619, 6621); (6684, 6685); (6751, 6751); (6781, 6782);
   (6794, 6799); (6810, 6815); (6830, 6831); (6863, 6911); (6989, 6991);
   (7039, 7039); (7156, 7163); (7224, 7226); (7242, 7244); (7305, 7311);
   (7355, 7356); (7368, 7375); (7419, 7423); (7958, 7959); (7966, 7967);
   (8006, 8007); (8014, 8015); (8024, 8024); (8026, 8026); (8028, 8028);
   (8030, 8030); (8062, 8063); (8117, 8117); (8133, 8133); (8148, 8149);
   (8156, 8156); (8176, 8177); (8181, 8181); (8191, 8207); (8232, 8239);
   (8287, 8303); (8306, 8307); (8335, 8335); (8349, 8351); (8385, 8399);
   (8433, 8447); (8588, 8591); (9255, 9279); (9291, 9311); (11124, 11125);
   (11158, 11158); (11508, 11512); (11558, 11558); (11560, 11564);
   (11566, 11567); (11624, 11630); (11633, 11646); (11671, 11679);
   (11687, 11687); (11695, 11695); (11703, 11703); (11711, 11711);
   (11719, 11719); (11727, 11727); (11735, 11735); (11743, 11743);
   (11870, 11903); (11930, 11930); (12020, 12031); (12246, 12271);
   (12284, 12288); (12352, 12352); (12439, 12440); (12544, 12548);
   (12592, 12592); (12687, 12687); (12772, 12783); (12831, 12831);
   (42125, 42127); (42183, 42191); (42540, 42559); (42744, 42751);
   (42955, 42959); (42962, 42962); (42964, 42964); (42970, 42993);
   (43053, 43055); (43066, 43071); (43128, 43135); (43206, 43213);
   (43226, 43231); (43348, 43358); (43389, 43391); (43470, 43470);
   (43482, 43485); (43519, 43519); (43575, 43583); (43598, 43599);
   (43610, 43611); (43715, 43738); (43767, 43776); (43783, 43784);
   (43791, 43792); (43799, 43807); (43815, 43815); (43823, 43823);
   (43884, 43887); (44014, 44015); (44026, 44031); (55204, 55215);
   (55239, 55242); (55292, 63743); (64110, 64111); (64218, 64255);
   (64263, 64274); (64280, 64284); (64311, 64311); (64317, 64317);
   (64319, 64319); (64322, 64322); (64325, 64325); (64451, 64466);
   (64912, 64913); (64968, 64974); (64976, 65007); (65050, 65055);
   (65107, 65107); (65127, 65127); (65132, 65135); (65141, 65141);
   (65277, 65280); (65471, 65473); (65480, 65481); (65488, 65489);
   (65496, 65497); (65501, 65503); (65511, 65511); (65519, 65531);
   (65534, 65535); (65548, 65548); (65575, 65575); (65595, 65595);
   (65598, 65598); (65614, 65615); (65630, 65663); (65787, 65791);
   (65795, 65798); (65844, 65846); (65935, 65935); (65949, 65951);
   (65953, 65999); (66046, 66175); (66205, 66207); (66257, 66271);
   (66300, 66303); (66340, 66348); (66379, 66383); (66427, 66431);
   (66462, 66462); (66500, 66503); (66518, 66559); (66718, 66719);
   (66730, 66735); (66772, 66775); (66812, 66815); (66856, 66863);
   (66916, 66926); (66939, 66939); (66955, 66955); (66963, 66963);
   (66966, 66966); (66978, 66978); (66994, 66994); (67002, 67002);
   (67005, 67071); (67383, 67391); (67414, 67423); (67432, 67455);
   (67462, 67462); (67505, 67505); (67515, 67583); (67590, 67591);
   (67593, 67593); (67638, 67638); (67641, 67643); (67645, 67646);
   (67670, 67670); (67743, 67750); (67760, 67807); (67827, 67827);
   (67830, 67834); (67868, 67870); (67898, 67902); (67904, 67967);
   (68024, 68027); (68048, 68049); (68100, 68100); (68103, 68107);
   (68116, 68116); (68120, 68120); (68150, 68151); (68155, 68158);
   (68169, 68175); (68185, 68191); (68256, 68287); (68327, 68330);
   (68343, 68351); (68406, 68408); (68438, 68439); (68467, 68471);
   (68498, 68504); (68509, 68520); (68528, 68607); (68681, 68735);
   (68787, 68799); (68851, 68857); (68904, 68911); (68922, 69215);
   (69247, 69247); (69290, 69290); (69294, 69295); (69298, 69375);
   (69416, 69423); (69466, 69487); (69514, 69551); (69580, 69599);
   (69623, 69631); (69710, 69713); (69750, 69758); (69821, 69821);
   (69827, 69839); (69865, 69871); (69882, 69887); (69941, 69941);
   (69960, 69967); (70007, 70015); (70112, 70112); (70133, 70143);
   (70162, 70162); (70207, 70271); (70279, 70279); (70281, 70281);
   (70286, 70286); (70302, 70302); (70314, 70319); (70379, 70383);
   (70394, 70399); (70404, 70404); (70413, 70414); (70417, 70418);
   (70441, 70441); (70449, 70449); (70452, 70452); (70458, 70458);
   (70469, 70470); (70473, 70474); (70478, 70479); (70481, 70486);
   (70488, 70492); (70500, 70501); (70509, 70511); (70517, 70655);
   (70748, 70748); (70754, 70783); (70856, 70863); (70874, 71039);
   (71094, 71095); (71134, 71167); (71237, 71247); (71258, 71263);
   (71277, 71295); (71354, 71359); (71370, 71423); (71451, 71452);
   (71468, 71471); (71495, 71679); (71740, 71839); (71923, 71934);
   (71943, 71944); (71946, 71947); (71956, 71956); (71959, 71959);
   (71990, 71990); (71993, 71994); (72007, 72015); (72026, 72095);
   (72104, 72105); (72152, 72153); (72165, 72191); (72264, 72271);
   (72355, 72367); (72441, 72703); (72713, 72713); (72759, 72759);
   (72774, 72783); (72813, 72815); (72848, 72849); (72872, 72872);
   (72887, 72959); (72967, 72967); (72970, 72970); (73015, 73017);
   (73019, 73019); (73022, 73022); (73032, 73039); (73050, 73055);
   (73062, 73062); (73065, 73065); (73103, 73103); (73106, 73106);
   (73113, 73119); (73130, 73439); (73465, 73647); (73649, 73663);
   (73714, 73726); (74650, 74751); (74863, 74863); (74869, 74879);
   (75076, 77711); (77811, 77823); (78895, 82943); (83527, 92159);
   (92729, 92735); (92767, 92767); (92778, 92781); (92863, 92863);
   (92874, 92879); (92910, 92911); (92918, 92927); (92998, 93007);
   (93018, 93018); (93026, 93026); (93048, 93052); (93072, 93759);
   (93851, 93951); (94027, 94030); (94088, 94094); (94112, 94175);
   (94181, 94191); (94194, 94207); (100344, 100351); (101590, 101631);
   (101641, 110575); (110580, 110580); (110588, 110588); (110591, 110591);
   (110883, 110927); (110931, 110947); (110952, 110959); (111356, 113663);
   (113771, 113775); (113789, 113791); (113801, 113807); (113818, 113819);
   (113824, 118527); (118574, 118575); (118599, 118607); (118724, 118783);
   (119030, 119039); (119079, 119080); (119155, 119162); (119275, 119295);
   (119366, 119519); (119540, 119551); (119639, 119647); (119673, 119807);
   (119893, 119893); (119965, 119965); (119968, 119969); (119971, 119972);
   (119975, 119976); (119981, 119981); (119994, 119994); (119996, 119996);
   (120004, 120004); (120070, 120070); (120075, 120076); (120085, 120085);
   (120093, 120093); (120122, 120122); (120127, 120127); (120133, 120133);
   (120135, 120137); (120145, 120145); (120486, 120487); (120780, 120781);
   (121484, 121498); (121504, 121504); (121520, 122623); (122655, 122879);
   (122887, 122887); (122905, 122906); (122914, 122914); (122917, 122917);
   (122923, 123135); (123181, 123183); (123198, 123199); (123210, 123213);
   (123216, 123535); (123567, 123583); (123642, 123646); (123648, 124895);
   (124903, 124903); (124908, 124908); (124911, 124911); (124927, 124927);
   (125125, 125126); (125143, 125183); (125260, 125263); (125274, 125277);
   (125280, 126064); (126133, 126208); (126270, 126463); (126468, 126468);
   (126496, 126496); (126499, 126499); (126501, 126502); (126504, 126504);
   (126515, 126515); (126520, 126520); (126522, 126522); (126524, 126529);
   (126531, 126534); (126536, 126536); (126538, 126538); (126540, 126540);
   (126544, 126544); (126547, 126547); (126549, 126550); (126552, 126552);
   (126554, 126554); (126556, 126556); (126558, 126558); (126560, 126560);
   (126563, 126563); (126565, 126566); (126571, 126571); (126579, 126579);
   (126584, 126584); (126589, 126589); (126591, 126591); (126602, 126602);
   (126620, 126624); (126628, 126628); (126634, 126634); (126652, 126703);
   (126706, 126975); (127020, 127023); (127124, 127135); (127151, 127152);
   (127168, 127168); (127184, 127184); (127222, 127231); (127406, 127461);
   (127491, 127503); (127548, 127551); (127561, 127567); (127570, 127583);
   (127590, 127743); (128728, 128732); (128749, 128751); (128765, 128767);
   (128884, 128895); (128985, 128991); (129004, 129007); (129009, 129023);
   (129036, 129039); (129096, 129103); (129114, 129119); (129160, 129167);
   (129198, 129199); (129202, 129279); (129620, 129631); (129646, 129647);
   (129653, 129655); (129661, 129663); (129671, 129679); (129709, 129711);
   (129723, 129727); (129734, 129743); (129754, 129759); (129768, 129775);
   (129783, 129791); (129939, 129939); (129995, 130031); (130042, 131071);
   (173792, 173823); (177977, 177983); (178206, 178207); (183970, 183983);
   (191457, 194559); (195102, 196607); (201547, 917759); (918000, 1114111)]%Z.

(** [chr(cp).isprintable()] *)
Definition isprintable (cp : Z) : bool :=
  if (cp <? 128)%Z then (32 <=? cp)%Z && (cp <? 127)%Z
  else negb (existsb (fun r => (fst r <=? cp)%Z && (cp <=? snd r)%Z) nonprintable).

(** The escape of a character that is not written as it is. *)
Definition escape (cp : Z) : string :=
  if (cp <? 256)%Z then String backslash ("x" ++ hex 2 cp)
  else if (cp <? 65536)%Z then String backslash ("u" ++ hex 4 cp)
  else String backslash ("U" ++ hex 8 cp).

(** One character of a [repr], between quotes [q]: [cp] is its code point
    and [bytes] its UTF-8 encoding. *)
Definition repr_char (q : ascii) (cp : Z) (bytes : string) : string :=
  if (cp =? 92)%Z then String backslash (String backslash "")
  else if (cp =? Z.of_nat (nat_of_ascii q))%Z then String backslash (String q "")
  else if (cp =? 9)%Z then String backslash "t"
  else if (cp =? 10)%Z then String backslash "n"
  else if (cp =? 13)%Z then String backslash "r"
  else if isprintable cp then bytes
  else escape cp.

Definition byte (a : ascii) : Z := Z.of_nat (nat_of_ascii a).

(** A continuation byte of UTF-8. *)
Definition continues (a : ascii) : bool :=
  (128 <=? byte a)%Z && (byte a <? 192)%Z.

(** The characters of [s], each through [repr_char].  A character takes one
    byte below 128, two after a lead byte in 192..223, three after one in
    224..239 (the surrogates, which Python strings may hold, included) and
    four after one in 240..247.  A byte that starts no such sequence does
    not occur in the encoding of a Python string; it is written as an
    escape. *)
Fixpoint repr_chars (q : ascii) (s : string) : string :=
  match s with
  | EmptyString => ""
  | String a s1 =>
      let stray := escape (byte a) ++ repr_chars q s1 in
      if (byte a <? 128)%Z then repr_char q (byte a) (String a "") ++ repr_chars q s1
      else
        match s1 with
        | EmptyString => stray
        | String b s2 =>
            if (192 <=? byte a)%Z && (byte a <? 224)%Z then
              if continues b
              then repr_char q ((byte a - 192) * 64 + (byte b - 128))%Z
                     (String a (String b "")) ++ repr_chars q s2
              else stray
            else
              match s2 with
              | EmptyString => stray
              | String c s3 =>
                  if (224 <=? byte a)%Z && (byte a <? 240)%Z then
                    if continues b && continues c
                    then repr_char q
                           ((byte a - 224) * 4096 + (byte b - 128) * 64
                            + (byte c - 128))%Z
                           (String a (String b (String c ""))) ++ repr_chars q s3
                    else stray
                  else
                    match s3 with
                    | EmptyString => stray
                    | String d s4 =>
                        if (240 <=? byte a)%Z && (byte a <? 248)%Z
                           && continues b && continues c && continues d
                        then repr_char q
                               ((byte a - 240) * 262144 + (byte b - 128) * 4096
                                + (byte c - 128) * 64 + (byte d - 128))%Z
                               (String a (String b (String c (String d ""))))
                             ++ repr_chars q s4
                        else stray
                    end
              end
        end
  end.

Definition str_repr (s : string) : string :=
  let q := if contains_char quote1 s && negb (contains_char quote2 s)
           then quote2 else quote1 in
  String q (repr_chars q s ++ String q "").

Definition int_repr (z : Z) : string := NilZero.string_of_int (Z.to_int z).

Fixpoint repr (v : Json) : string :=
  match v with
  | JNull => "None"
  | JBool b => if b then "True" else "False"
  | JInt z => int_repr z
  | JFloat f => float_repr f
  | JStr s => str_repr s
  | JList l =>
      "[" ++ (fix items (l : list Json) : string :=
                match l with
                | [] => ""
                | x :: l' =>
                    repr x ++ match l' with [] => "" | _ => ", " ++ items l' end
                end) l ++ "]"
  | JDict d =>
      "{" ++ (fix items (d : list (string * Json)) : string :=
                match d with
                | [] => ""
                | (k, x) :: d' =>
                    str_repr k ++ ": " ++ repr x
                    ++ match d' with [] => "" | _ => ", " ++ items d' end
                end) d ++ "}"
  end.

(** [str(v)], which is what an f-string field [{v}] inserts. *)
Definition str (v : Json) : string :=
  match v with
  | JStr s => s
  | _ => repr v
  end.

(** *** [str.lower] and [str.strip] *)

(** [s.lower()] on the ASCII letters.  No character outside ASCII lowers to
    one of the letters of ["true"], the only string the code compares a
    lowered value with. *)
Definition lower_char (c : ascii) : ascii :=
  let n := nat_of_ascii c in
  if Nat.leb 65 n && Nat.leb n 90 then ascii_of_nat (n + 32) else c.

Fixpoint lower (s : string) : string :=
  match s with
  | EmptyString => ""
  | String c s' => String (lower_char c) (lower s')
  end.

(** The characters [str.isspace] accepts: U+0009..U+000D, U+001C..U+0020 in
    one byte; U+0085 and U+00A0 in two; U+1680, U+2000..U+200A, U+2028,
    U+2029, U+202F, U+205F and U+3000 in three. *)
Definition space1 (a : ascii) : bool :=
  let n := nat_of_ascii a in
  (Nat.leb 9 n && Nat.leb n 13) || (Nat.leb 28 n && Nat.leb n 32).

Definition space2 (a b : ascii) : bool :=
  Nat.eqb (nat_of_ascii a) 194
  && (Nat.eqb (nat_of_ascii b) 133 || Nat.eqb (nat_of_ascii b) 160).

Definition space3 (a b c : ascii) : bool :=
  let x := nat_of_ascii a in
  let y := nat_of_ascii b in
  let z := nat_of_ascii c in
  (Nat.eqb x 225 && Nat.eqb y 154 && Nat.eqb z 128)
  || (Nat.eqb x 226 && Nat.eqb y 128
      && ((Nat.leb 128 z && Nat.leb z 138) || Nat.eqb z 168 || Nat.eqb z 169
          || Nat.eqb z 175))
  || (Nat.eqb x 226 && Nat.eqb y 129 && Nat.eqb z 159)
  || (Nat.eqb x 227 && Nat.eqb y 128 && Nat.eqb z 128).

(** Drop leading white space.  With [fwd = false] the string is read
    backwards, so the bytes of a character arrive last byte first. *)
Fixpoint lstrip_bytes (fwd : bool) (s : list ascii) : list ascii :=
  match s with
  | [] => []
  | a :: s1 =>
      if space1 a then lstrip_bytes fwd s1
      else
        match s1 with
        | [] => s
        | b :: s2 =>
            if (if fwd then space2 a b else space2 b a) then lstrip_bytes fwd s2
            else
              match s2 with
              | [] => s
              | c :: s3 =>
                  if (if fwd then space3 a b c else space3 c b a)
                  then lstrip_bytes fwd s3
                  else s
              end
        end
  end.

Definition strip (s : string) : string :=
  string_of_list_ascii
    (rev (lstrip_bytes false (rev (lstrip_bytes true (list_ascii_of_string s))))).

End Py.

Declare Scope py_scope.
Delimit Scope py_scope with py.
Notation "x <- m ;; k" := (Py.bind m (fun x => k))
  (at level 61, m at next level, right associativity) : py_scope.

Local Open Scope py_scope.

(** ** Flask plumbing *)

Module Flask.
Import Py.

(** What a view returns: [jsonify(body), status]. *)
Record Response : Type := mkResponse { status : Z; body : Json }.

(** [request.get_json(silent=True) or {}], where [payload] is what
    [get_json] returned ([JNull] when the body is missing or is not JSON). *)
Definition get_json_or_empty (payload : Json) : Json :=
  if truthy payload then payload else JDict [].

(** [@app.errorhandler(500)] *)
Definition internal_error : Response :=
  mkResponse 500 (JDict [("error", JStr "Internal server error")]).

(** A view that raises is answered by the 500 handler.  Every view below
    raises, if at all, before its first assignment to a store, so the store
    is then the one the request found. *)
Definition dispatch {S : Type} (store : S) (view : M (Response * S))
  : Response * S :=
  match view with
  | inr out => out
  | inl _ => (internal_error, store)
  end.

End Flask.

(** ** The application *)

Module App.
Import Py Flask.

(** *** Configuration read from the process environment *)

Definition environ := list (string * string).

(** [os.environ.get(name, default)] *)
Fixpoint environ_get (env : environ) (name default : string) : string :=
  match env with
  | [] => default
  | (n, v) :: env' => if n =? name then v else environ_get env' name default
  end.

Definition GATEWAY_BASE (env : environ) : string :=
  environ_get env "GATEWAY_BASE" "https://223.194.92.152:443".

Definition GW_VERIFY (env : environ) : bool :=
  lower (environ_get env "GW_VERIFY" "false") =? "true".

Definition MODEL_NAME (env : environ) : string :=
  environ_get env "MODEL_NAME" "gpt-oss:20b".

Definition MAX_ALARMS : nat := 3.

(** The initial [LATEST_RESULT_STORE]; its three keys never change, so the
    dict is kept as a record. *)
Record ResultStore : Type := mkResultStore {
  result : Json;
  timestamp : Json;
  scenario_id : Json
}.

Definition LATEST_RESULT_STORE : ResultStore :=
  mkResultStore (JDict [("text", JStr "")]) JNull JNull.

(** [LATEST_RESULT_STORE.copy()], as the dict handed to [jsonify]. *)
Definition copy (st : ResultStore) : Json :=
  JDict [("result", result st); ("timestamp", timestamp st);
         ("scenario_id", scenario_id st)].

Definition bad_request (msg : string) : Response :=
  mkResponse 400 (JDict [("error", JStr msg)]).

(** *** Gateway wrapper *)

(** The arguments of one [requests.get] or [requests.post] call. *)
Record Outbound : Type := mkOutbound {
  method : string;
  url : string;
  json : Json;
  timeout : Z;
  verify : bool;
  stream : bool
}.

(** What the gateway call and the decoding of its answer come to: the call
    or [raise_for_status] raises a [RequestException]; or [r.json()] raises
    ([as_request_exception] tells whether what it raises is a
    [RequestException]); or the answer decodes to [data]. *)
Inductive Upstream : Type :=
| UpRequestException (e : string)
| UpJsonError (e : string) (as_request_exception : bool)
| UpJson (data : Json).

Section Gateway.
Variable env : environ.
Variable LLM_TIMEOUT_S : Z.

Definition gw_get (path : string) (timeout : Z) : Outbound :=
  mkOutbound "GET" (GATEWAY_BASE env ++ path) JNull timeout (GW_VERIFY env) false.

Definition gw_post (path : string) (body : Json) (timeout : Z) (stream : bool)
  : Outbound :=
  mkOutbound "POST" (GATEWAY_BASE env ++ path) body timeout (GW_VERIFY env) stream.

Definition llm_generate (payload : Json) (stream : bool) : Outbound :=
  gw_post "/api/generate" payload LLM_TIMEOUT_S stream.

(** [POST /api/analyze].  The second component lists the calls issued to the
    gateway. *)
Definition api_analyze (gateway : Outbound -> Upstream) (payload : Json)
  : M (Response * list Outbound) :=
  let payload := get_json_or_empty payload in
  query <- get payload "query" (JStr "") ;;
  stripped <- match query with
              | JStr q => ret (strip q)
              | _ => no_attribute query "strip"
              end ;;
  if negb (truthy (JStr stripped)) then
    ret (bad_request "Query is required", [])
  else
    let llm_body := JDict [("model", JStr (MODEL_NAME env)); ("prompt", query);
                           ("stream", JBool false)] in
    let r := llm_generate llm_body false in
    let failed (e : string) :=
      mkResponse 500 (JDict [("error", JStr ("Analysis failed: " ++ e))]) in
    let bad_gateway (e : string) :=
      mkResponse 502 (JDict [("error", JStr ("Ollama API request failed: " ++ e))]) in
    match gateway r with
    | UpRequestException e => ret (bad_gateway e, [r])
    | UpJsonError e true => ret (bad_gateway e, [r])
    | UpJsonError e false => ret (failed e, [r])
    | UpJson data =>
        match get data "response" (JStr "") with
        | inl (AttributeError e) | inl (TypeError e) => ret (failed e, [r])
        | inr llm_text =>
            ret (mkResponse 202
                   (JDict [("status", JStr "Analysis completed");
                           ("llm_response", llm_text);
                           ("query", query)]), [r])
        end
    end.

End Gateway.

(** *** [POST /api/alerts/<scenario_id>] *)

Definition DEVICE_MAP : list (Z * string) := [(4, "CR1"); (5, "BB1"); (6, "BB2")]%Z.

(** [k == v] for an [int] key [k] of a dict: equal ints, equal floats and
    the booleans [True == 1], [False == 0] name the same key. *)
Definition int_key_eq (k : Z) (v : Json) : bool :=
  match v with
  | JInt z => (z =? k)%Z
  | JBool b => ((if b then 1 else 0) =? k)%Z
  | JFloat f => PrimFloat.eqb f (PrimFloat.of_uint63 (Uint63.of_Z k))
  | _ => false
  end.

(** [DEVICE_MAP.get(device_id, default)]: the key is hashed first, which a
    [list] or a [dict] does not support. *)
Definition DEVICE_MAP_get (device_id : Json) (default : string) : M string :=
  match device_id with
  | JList _ | JDict _ =>
      raise (TypeError ("unhashable type: '" ++ type_name device_id ++ "'"))
  | _ =>
      ret (match find (fun kv => int_key_eq (fst kv) device_id) DEVICE_MAP with
           | Some (_, name) => name
           | None => default
           end)
  end.

Definition log_description : string :=
  "fpc/8/pfe/0/cm/0/XMCHIP(0)/0/XMCHIP_CMERROR_FI_PAR_PROTECT_FSET_REG_DETECTED_CP_FREEPOOL (0x70134) in module: XMCHIP(0) with scope: pfe category: functional level: major, oc_category: default".

(** The [if scenario_id == ...] chain: either an early [return] with a 400
    response, or the dict bound to [unified_alarm_data].  [uuid4] is the
    value of [str(uuid.uuid4())]. *)
Definition unified_alarm_data (scenario_id : string) (body : Json) (uuid4 : string)
  : M (Response + dict) :=
  if scenario_id =? "1" then
    device_id <- get body "device" JNull ;;
    device_name <- DEVICE_MAP_get device_id ("Unknown(" ++ str device_id ++ ")") ;;
    interface_name <- get body "interface" JNull ;;
    packet_loss <- get body "packet_loss" JNull ;;
    time <- get body "timestamp" JNull ;;
    alarm_type <- get body "alarm_type" JNull ;;
    interlink_status <- get body "interlink_status" JNull ;;
    optic_power_data <- get body "optic_power" (JDict []) ;;
    if negb (all [truthy device_id; truthy interface_name;
                  is_not_None packet_loss; truthy alarm_type])
    then ret (inl (bad_request "Missing data for scenario 1"))
    else
      let art :=
        if eq_str interlink_status "false"
        then "*경고 : " ++ str interface_name
             ++ "가 down되어있습니다. interlink를 확인해주세요."
        else "" in
      ret (inr
        [("id", JStr uuid4);
         ("device", JStr device_name);
         ("title", JStr (device_name ++ " 장비 Interface " ++ str interface_name
                         ++ " CRC Error 발생"));
         ("description", JStr ("Interface " ++ str interface_name ++ " error rate - "
                               ++ str packet_loss ++ "%<br>" ++ art));
         ("type", alarm_type);
         ("time", time);
         ("optic_power_data", optic_power_data);
         ("show_optic_power_button", JBool true);
         ("interface_name", interface_name)])
  else if scenario_id =? "3" then
    device_id <- get body "device" JNull ;;
    device_name <- DEVICE_MAP_get device_id ("Unknown(" ++ str device_id ++ ")") ;;
    interface_name <- get body "interface" JNull ;;
    interfaces_list <- get body "interfaces" (JList []) ;;
    inout_packet <- get body "inout_packet" (JDict []) ;;
    time <- get body "timestamp" JNull ;;
    drop_count <- get body "drop_count" (JDict []) ;;
    if negb (all [truthy device_id; truthy interface_name; truthy interfaces_list;
                  truthy inout_packet; truthy drop_count])
    then ret (inl (bad_request "Missing data for scenario 3"))
    else
      severity <- get inout_packet "alarm_type" JNull ;;
      rate <- get inout_packet "traffic_diff" (JFloat 0) ;;
      let description_text := "Service Impact Rate - " ++ str rate ++ "%" in
      ret (inr
        [("id", JStr uuid4);
         ("title", JStr (device_name ++ " Interface " ++ str interface_name
                         ++ "에서 Blackhole 발생"));
         ("description", JStr description_text);
         ("type", severity);
         ("time", time);
         ("show_optic_power_button", JBool false);
         ("show_interfaces_button", JBool true);
         ("interfaces", interfaces_list)])
  else if scenario_id =? "2" then
    device_id <- get body "device" JNull ;;
    device_name <- DEVICE_MAP_get device_id ("Unknown(" ++ str device_id ++ ")") ;;
    fpc_slot <- get body "fpc_slot" JNull ;;
    time <- get body "timestamp" JNull ;;
    nested <- get body "discard_rate" (JDict []) ;;
    discard_rate <- get nested "discard_rate" (JFloat 0) ;;
    if negb (all [truthy device_id; truthy fpc_slot; truthy (JStr log_description);
                  truthy discard_rate])
    then ret (inl (bad_request "Missing data for scenario 2"))
    else
      let severity := "major" in
      ret (inr
        [("id", JStr uuid4);
         ("title", JStr (device_name ++ " 장비 FPC" ++ str fpc_slot
                         ++ " PFE Disable 발생"));
         ("description", JStr ("Service Impact Rate - " ++ str discard_rate ++ "%"));
         ("type", JStr severity);
         ("time", time);
         ("show_optic_power_button", JBool false);
         ("show_interfaces_button", JBool false);
         ("show_log_button", JBool true);
         ("discard_data", discard_rate);
         ("log_description", JStr log_description)])
  else
    ret (inl (bad_request "invalid or unsupported scenario_id")).

(** [ALARM_STORE.pop(0)] when the store is full, then [append]. *)
Definition store_alarm (ALARM_STORE : list dict) (alarm : dict) : list dict :=
  let ALARM_STORE :=
    if Nat.leb MAX_ALARMS (List.length ALARM_STORE) then tl ALARM_STORE
    else ALARM_STORE in
  ALARM_STORE ++ [alarm].

Definition api_alerts (scenario_id : string) (payload : Json) (uuid4 : string)
  (ALARM_STORE : list dict) : M (Response * list dict) :=
  let body := get_json_or_empty payload in
  if negb (truthy body) then
    ret (bad_request "Request body is required", ALARM_STORE)
  else
    built <- unified_alarm_data scenario_id body uuid4 ;;
    match built with
    | inl early => ret (early, ALARM_STORE)
    | inr alarm =>
        let ALARM_STORE := store_alarm ALARM_STORE alarm in
        ret (mkResponse 200
               (JDict [("status", JStr "success");
                       ("alarms", JList (map JDict ALARM_STORE))]),
             ALARM_STORE)
    end.

(** *** [GET /api/current-alarms] *)

Definition get_current_alarms (ALARM_STORE : list dict) : Response :=
  if truthy (JList (map JDict ALARM_STORE))
  then mkResponse 200 (JList (map JDict ALARM_STORE))
  else mkResponse 202 (JDict [("status", JStr "no new alarm")]).

(** *** [DELETE /api/alarms/ignore/<alarm_id>] *)

(** [alarm.get("id")] on a stored alarm, which is a dict. *)
Definition dict_get (d : dict) (k : string) : Json :=
  match lookup k d with Some x => x | None => JNull end.

(** Nothing in the [try] block can raise on a list of dicts, so the
    [except] branch (500) is not reachable. *)
Definition api_ignore_alarm (alarm_id : string) (ALARM_STORE : list dict)
  : Response * list dict :=
  let original_len := List.length ALARM_STORE in
  let ALARM_STORE :=
    filter (fun alarm => negb (eq_str (dict_get alarm "id") alarm_id)) ALARM_STORE in
  if Nat.ltb (List.length ALARM_STORE) original_len then
    (mkResponse 200 (JDict [("status", JStr "success");
                            ("message", JStr "Alarm ignored and removed")]),
     ALARM_STORE)
  else
    (mkResponse 404 (JDict [("error", JStr "Alarm ID not found")]), ALARM_STORE).

(** *** [POST /api/agent/process] and [GET /api/results/latest-result] *)

(** [now] is the value of [time.time()]. *)
Definition api_agent_process (payload : Json) (now : float) (st : ResultStore)
  : M (Response * ResultStore) :=
  let body := get_json_or_empty payload in
  if negb (truthy body) then
    ret (bad_request "Request body is required", st)
  else
    text <- get body "text" JNull ;;
    let st := mkResultStore (JDict [("text", text)]) (timestamp st) (scenario_id st) in
    let st := mkResultStore (result st) (JFloat now) (scenario_id st) in
    sid <- get body "scenario_id" JNull ;;
    let st := mkResultStore (result st) (timestamp st) sid in
    ret (mkResponse 200 (JDict [("status", JStr "success");
                                ("message", JStr "Result stored")]), st).

Definition get_analysis_results (st : ResultStore) : Response * ResultStore :=
  if truthy (result st) then
    let result_copy := copy st in
    let st := mkResultStore JNull (timestamp st) (scenario_id st) in
    let st := mkResultStore (result st) JNull (scenario_id st) in
    let st := mkResultStore (result st) (timestamp st) JNull in
    (mkResponse 200 result_copy, st)
  else
    (mkResponse 202 (JDict [("status", JStr "processing")]), st).

(** *** The routes as served: a raising view is answered with 500 *)

Definition post_alerts (scenario_id : string) (payload : Json) (uuid4 : string)
  (ALARM_STORE : list dict) : Response * list dict :=
  dispatch ALARM_STORE (api_alerts scenario_id payload uuid4 ALARM_STORE).

Definition post_agent_process (payload : Json) (now : float) (st : ResultStore)
  : Response * ResultStore :=
  dispatch st (api_agent_process payload now st).

Definition post_analyze (env : environ) (LLM_TIMEOUT_S : Z)
  (gateway : Outbound -> Upstream) (payload : Json) : Response * list Outbound :=
  dispatch [] (api_analyze env LLM_TIMEOUT_S gateway payload).

End App.

Import Py Flask App.

(** ** The gateway as the wrappers drive it *)

Module Net.
Import Py Flask App.

(** What the wrappers can raise: a [requests.exceptions.RequestException],
    or something else. *)
Inductive Raised : Type :=
| RequestException (e : string)
| OtherException (e : string).

(** What [requests] hands back once an exchange completes: the status line,
    [r.url], the [Content-Type] header if there is one, [r.text], and what
    [r.json()] comes to. *)
Record RawResponse : Type := mkRaw {
  status_code : Z;
  reason : string;
  response_url : string;
  content_type : option string;
  text : string;
  json_result : Raised + Json
}.

(** The outcome of [requests.get] / [requests.post]: the call raises a
    [RequestException] (no connection, timeout, ...) or is answered. *)
Inductive Wire : Type :=
| Failed (e : string)
| Answered (r : RawResponse).

(** The gateway: its outcome for a call, given the calls made before it. *)
Definition Oracle : Type := list Outbound -> Outbound -> Wire.

(** One [requests] call; the trace gains the call. *)
Definition request (net : Oracle) (trace : list Outbound) (call : Outbound)
  : (Raised + RawResponse) * list Outbound :=
  (match net trace call with
   | Failed e => inl (RequestException e)
   | Answered r => inr r
   end, (trace ++ [call])%list).

(** [r.raise_for_status()]: an [HTTPError], which is a [RequestException],
    for the codes 400..599. *)
Definition raise_for_status (r : RawResponse) : Raised + unit :=
  let code := status_code r in
  if ((400 <=? code) && (code <? 500))%Z then
    inl (RequestException (int_repr code ++ " Client Error: " ++ reason r
                           ++ " for url: " ++ response_url r))
  else if ((500 <=? code) && (code <? 600))%Z then
    inl (RequestException (int_repr code ++ " Server Error: " ++ reason r
                           ++ " for url: " ++ response_url r))
  else inr tt.

(** [needle in hay] on strings. *)
Fixpoint contains (needle hay : string) : bool :=
  String.prefix needle hay
  || match hay with
     | EmptyString => false
     | String _ hay' => contains needle hay'
     end.

(** ["application/json" in r.headers.get("Content-Type", "")] *)
Definition declares_json (r : RawResponse) : bool :=
  contains "application/json"
    (match content_type r with Some ct => ct | None => "" end).

Section Wrappers.
Variable env : environ.
Variable LLM_TIMEOUT_S AGENT_TIMEOUT_S : Z.
Variable net : Oracle.

(** The call, then [raise_for_status]; what is raised is logged and raised
    again. *)
Definition checked (sent : (Raised + RawResponse) * list Outbound)
  : (Raised + RawResponse) * list Outbound :=
  match sent with
  | (inl e, trace) => (inl e, trace)
  | (inr r, trace) =>
      match raise_for_status r with
      | inl e => (inl e, trace)
      | inr _ => (inr r, trace)
      end
  end.

Definition gw_get (trace : list Outbound) (path : string) (timeout : Z)
  : (Raised + RawResponse) * list Outbound :=
  checked (request net trace (App.gw_get env path timeout)).

Definition gw_post (trace : list Outbound) (path : string) (body : Json)
  (timeout : Z) (stream : bool) : (Raised + RawResponse) * list Outbound :=
  checked (request net trace (App.gw_post env path body timeout stream)).

Definition llm_tags (trace : list Outbound) : (Raised + Json) * list Outbound :=
  match gw_get trace "/ollama/api/tags" LLM_TIMEOUT_S with
  | (inl e, trace) => (inl e, trace)
  | (inr r, trace) =>
      (if declares_json r then json_result r else inr (JStr (text r)), trace)
  end.


(** The answer of the proxy when the exchange fails. *)
Definition proxy_error (e : string) : Response :=
  mkResponse 502
    (JDict [("status", JStr "error");
            ("message", JStr ("외부 조치 서버 통신 실패: " ++ e))]).

(** [POST /api/anomaly/process/<actionId>].  A [RequestException] raised in
    the [try] block is answered 502; anything else raised there leaves the
    view. *)
Definition process_anomaly_action_proxy (trace : list Outbound)
  (actionId : string) (payload : Json) : (Raised + Response) * list Outbound :=
  let payload := get_json_or_empty payload in
  let external_url := GATEWAY_BASE env ++ "/api/anomaly/process/" ++ actionId in
  let (response, trace) :=
    request net trace
      (mkOutbound "POST" external_url payload AGENT_TIMEOUT_S (GW_VERIFY env) false) in
  let attempt :=
    match response with
    | inl e => inl e
    | inr r =>
        match raise_for_status r with
        | inl e => inl e
        | inr _ =>
            match json_result r with
            | inl e => inl e
            | inr data => inr (mkResponse (status_code r) data)
            end
        end
    end in
  (match attempt with
   | inl (RequestException e) => inr (proxy_error e)
   | inl (OtherException e) => inl (OtherException e)
   | inr answer => inr answer
   end, trace).

(** The route as served: what leaves the view is answered by the 500
    handler. *)
Definition post_anomaly_process (trace : list Outbound) (actionId : string)
  (payload : Json) : Response * list Outbound :=
  match process_anomaly_action_proxy trace actionId payload with
  | (inl _, trace) => (internal_error, trace)
  | (inr answer, trace) => (answer, trace)
  end.

End Wrappers.

End Net.

(** * Vocabulary of the properties *)

(** ** Configuration and mailbox *)

(** Whether the process environment binds [name]. *)
Definition is_set (env : environ) (name : string) : bool :=
  existsb (fun kv => fst kv =? name) env.

(** The mailbox once read: all three fields [None]. *)
Definition cleared : ResultStore := mkResultStore JNull JNull JNull.

(** ** Stored alarms *)

(** The alarm carries the id [alarm_id]. *)
Definition has_id (alarm_id : string) (alarm : dict) : Prop :=
  dict_get alarm "id" = JStr alarm_id.

(** [removed alarm_id before after]: [after] is [before] without the entries
    that carry [alarm_id]; every other entry stays, in its place. *)
Inductive removed (alarm_id : string) : list dict -> list dict -> Prop :=
| removed_nil : removed alarm_id [] []
| removed_drop alarm before after :
    has_id alarm_id alarm ->
    removed alarm_id before after ->
    removed alarm_id (alarm :: before) after
| removed_keep alarm before after :
    ~ has_id alarm_id alarm ->
    removed alarm_id before after ->
    removed alarm_id (alarm :: before) (alarm :: after).

(** Two stored alarms to try the store operations on. *)
Definition alarm_a : dict := [("id", JStr "a"); ("title", JStr "first")].

Definition alarm_b : dict := [("id", JStr "b"); ("title", JStr "second")].

(** ** Queries *)



(** ** Ingestion *)

(** The alarm a request gets stored, if it gets one stored: the body is
    true and the scenario chain runs through to the dict. *)
Definition built (scenario_id : string) (payload : Json) (uuid4 : string)
  : option dict :=
  if truthy payload then
    match unified_alarm_data scenario_id payload uuid4 with
    | inr (inr alarm) => Some alarm
    | _ => None
    end
  else None.

(** Case analysis along a view: split on the next call that may raise and on
    the next condition. *)
Ltac view_cases H :=
  repeat (cbn [bind ret raise] in H;
          match type of H with
          | context [bind ?m _] => destruct m eqn:?
          | context [if ?c then _ else _] => destruct c eqn:?
          end);
  cbn [bind ret raise] in H.

(** The answer to an ingestion that stored an alarm. *)
Definition success (ALARM_STORE : list dict) : Response :=
  mkResponse 200 (JDict [("status", JStr "success");
                         ("alarms", JList (map JDict ALARM_STORE))]).

(** One [POST /api/alerts/<scenario_id>] with the id drawn for it. *)
Record Ingest : Type := mkIngest {
  ingest_scenario : string;
  ingest_payload : Json;
  ingest_uuid : string
}.

(** Serving one such request. *)
Definition ingest (r : Ingest) (ALARM_STORE : list dict) : Response * list dict :=
  post_alerts (ingest_scenario r) (ingest_payload r) (ingest_uuid r) ALARM_STORE.

(** The alarm it gets stored, if any. *)
Definition built_by (r : Ingest) : option dict :=
  built (ingest_scenario r) (ingest_payload r) (ingest_uuid r).

(** Serve the requests one after the other; the answers, and the store at
    the end. *)
Fixpoint serve_all (reqs : list Ingest) (ALARM_STORE : list dict)
  : list Response * list dict :=
  match reqs with
  | [] => ([], ALARM_STORE)
  | r :: reqs' =>
      let (response, ALARM_STORE) := ingest r ALARM_STORE in
      let (responses, final) := serve_all reqs' ALARM_STORE in
      (response :: responses, final)
  end.

(** The [n] last elements of a list, in the order of the list. *)
Definition newest {A : Type} (n : nat) (l : list A) : list A :=
  skipn (List.length l - n) l.

(** The stores the process can hold: empty at start-up, then whatever the
    two routes that write [ALARM_STORE] leave. *)
Inductive reachable : list dict -> Prop :=
| reachable_start : reachable []
| reachable_post scenario_id payload uuid4 ALARM_STORE :
    reachable ALARM_STORE ->
    reachable (snd (post_alerts scenario_id payload uuid4 ALARM_STORE))
| reachable_ignore alarm_id ALARM_STORE :
    reachable ALARM_STORE ->
    reachable (snd (api_ignore_alarm alarm_id ALARM_STORE)).

(** The payload of the interface-error example: device 4, interface
    ge-0/0/1, packet loss 12.5, a major alarm, the interlink reported down. *)
Definition crc_payload : Json :=
  JDict [("device", JInt 4); ("interface", JStr "ge-0/0/1");
         ("packet_loss", JFloat 12.5); ("alarm_type", JStr "major");
         ("interlink_status", JStr "false")].

(** Four accepted requests in a row. *)
Definition four_requests : list Ingest :=
  [mkIngest "1" crc_payload "u-1"; mkIngest "1" crc_payload "u-2";
   mkIngest "1" crc_payload "u-3"; mkIngest "1" crc_payload "u-4"].

(** The warning the description carries when the interlink is down. *)
Definition interlink_warning (interface_name : string) : string :=
  "*경고 : " ++ interface_name ++ "가 down되어있습니다. interlink를 확인해주세요.".

(** ** Refused requests *)

(** Values Python can hash, hence look up in [DEVICE_MAP]. *)
Definition hashable (v : Json) : bool :=
  match v with
  | JList _ | JDict _ => false
  | _ => true
  end.

(** The value at [discard_rate.discard_rate], if the payload has one. *)
Definition nested_discard_rate (d : dict) : option Json :=
  match lookup "discard_rate" d with
  | Some (JDict nested) => lookup "discard_rate" nested
  | _ => None
  end.


(** The [discard_rate] entry, when the payload has one, is an object, so the
    nested [get] has a dict to work on. *)
Definition discard_rate_entry_ok (d : dict) : Prop :=
  lookup "discard_rate" d = None
  \/ exists nested, lookup "discard_rate" d = Some (JDict nested).

(** The scenarios the chain knows. *)
Definition supported (scenario_id : string) : Prop :=
  scenario_id = "1" \/ scenario_id = "2" \/ scenario_id = "3".




(** The scenario chain gets as far as its check on this object: the device
    value can be hashed and, for scenario 2, the [discard_rate] entry is
    absent or an object. *)
Definition reaches_check (scenario_id : string) (payload : Json) : Prop :=
  forall d, payload = JDict d ->
    hashable (dict_get d "device") = true
    /\ (scenario_id = "2" -> discard_rate_entry_ok d).



(** ** Further vocabulary *)

(** The ids of the stored alarms, in store order. *)
Definition alarm_ids (ALARM_STORE : list dict) : list Json :=
  map (fun alarm => dict_get alarm "id") ALARM_STORE.

(** No stored alarm carries [uuid4]. *)
Definition fresh (uuid4 : string) (ALARM_STORE : list dict) : Prop :=
  forall alarm, In alarm ALARM_STORE -> ~ has_id uuid4 alarm.

(** The store an ingestion appends to: the old one, less its oldest entry
    when it is full. *)
Definition kept (ALARM_STORE : list dict) : list dict :=
  if Nat.leb MAX_ALARMS (List.length ALARM_STORE) then tl ALARM_STORE
  else ALARM_STORE.

(** The value is a JSON object. *)
Definition is_object (v : Json) : bool :=
  match v with JDict _ => true | _ => false end.

(** The answers of the two polling routes when there is nothing to hand out. *)
Definition processing : Response :=
  mkResponse 202 (JDict [("status", JStr "processing")]).

Definition not_found_alarm : Response :=
  mkResponse 404 (JDict [("error", JStr "Alarm ID not found")]).

Definition removed_alarm : Response :=
  mkResponse 200 (JDict [("status", JStr "success");
                         ("message", JStr "Alarm ignored and removed")]).

(** The call [api_analyze] makes for the query [q]. *)
Definition generate_call (env : environ) (LLM_TIMEOUT_S : Z) (q : string)
  : Outbound :=
  mkOutbound "POST" (GATEWAY_BASE env ++ "/api/generate")
    (JDict [("model", JStr (MODEL_NAME env)); ("prompt", JStr q);
            ("stream", JBool false)])
    LLM_TIMEOUT_S (GW_VERIFY env) false.

(** The request carries a string query with something but white space in it. *)
Definition asks (payload : Json) (q : string) : Prop :=
  exists d,
    get_json_or_empty payload = JDict d
    /\ lookup "query" d = Some (JStr q)
    /\ strip q <> "".

(** The call the proxy makes for an action. *)
Definition action_call (env : environ) (AGENT_TIMEOUT_S : Z) (actionId : string)
  (payload : Json) : Outbound :=
  mkOutbound "POST" (GATEWAY_BASE env ++ "/api/anomaly/process/" ++ actionId)
    (get_json_or_empty payload) AGENT_TIMEOUT_S (GW_VERIFY env) false.

(** Sample answers of the gateway, and gateways that give one answer to
    every call. *)
Definition done_response : Net.RawResponse :=
  Net.mkRaw 200 "OK" "https://gw/process-anomaly" (Some "application/json")
    "{}" (inr (JDict [("done", JBool true)])).

Definition html_response : Net.RawResponse :=
  Net.mkRaw 200 "OK" "https://gw/ollama/api/tags" (Some "text/html")
    "<html></html>" (inl (Net.OtherException "Expecting value")).

Definition missing_response : Net.RawResponse :=
  Net.mkRaw 404 "Not Found" "https://gw/api/anomaly/process/a-1" None
    "" (inl (Net.OtherException "Expecting value")).

Definition answering (r : Net.RawResponse) : Net.Oracle :=
  fun _ _ => Net.Answered r.


(** The call [llm_tags] makes. *)
Definition tags_call (env : environ) (LLM_TIMEOUT_S : Z) : Outbound :=
  App.gw_get env "/ollama/api/tags" LLM_TIMEOUT_S.

(** A gateway that cannot be reached. *)
Definition refusing : Net.Oracle := fun _ _ => Net.Failed "timed out".

(** The status is one [raise_for_status] raises on. *)
Definition error_status (code : Z) : Prop := (400 <= code < 600)%Z.


(** The name a device id resolves to: the entry of the table for the ids
    equal to 4, 5 and 6, [Unknown(<id>)] for any other. *)
Definition resolved_name (device_id : Json) : string :=
  if int_key_eq 4 device_id then "CR1"
  else if int_key_eq 5 device_id then "BB1"
  else if int_key_eq 6 device_id then "BB2"
  else "Unknown(" ++ str device_id ++ ")".

(** * Properties *)

(** ** The Python layer on sample values *)

Example float_repr_samples :
  map float_repr
    [12.5; 7.3; 0.1; 100; 1e16; 1e15; 0.0001; 0.00001; 1e22; -3.25; 0;
     -0; infinity; nan]%float
  = ["12.5"; "7.3"; "0.1"; "100.0"; "1e+16"; "1000000000000000.0"; "0.0001";
     "1e-05"; "1e+22"; "-3.25"; "0.0"; "-0.0"; "inf"; "nan"].
Proof. vm_compute. reflexivity. Qed.

Example str_samples :
  map str [JNull; JBool true; JInt (-12); JFloat 12.5; JStr "ge-0/0/1";
           JList [JInt 4; JFloat 0.5; JNull];
           JDict [("k", JStr "v"); ("n", JList [])]]
  = ["None"; "True"; "-12"; "12.5"; "ge-0/0/1"; "[4, 0.5, None]";
     "{'k': 'v', 'n': []}"].
Proof. vm_compute. reflexivity. Qed.

Example str_escapes :
  map str
    [JList [JStr (String (ascii_of_nat 194) (String (ascii_of_nat 160) ""))];
     JList [JStr (String (ascii_of_nat 226)
                    (String (ascii_of_nat 128) (String (ascii_of_nat 139) "")))];
     JList [JStr "가"]; JList [JStr (String (ascii_of_nat 10) "a\b")]]
  = ["['\xa0']"; "['\u200b']"; "['가']"; "['\na\\b']"].
Proof. vm_compute. reflexivity. Qed.

Example truthy_samples :
  map truthy [JNull; JInt 0; JFloat 0; JFloat (-0); JStr ""; JList []; JDict [];
              JFloat nan; JStr "0"; JList [JNull]; JDict [("text", JStr "")]]
  = [false; false; false; false; false; false; false; true; true; true; true].
Proof. vm_compute. reflexivity. Qed.

Example strip_samples :
  map strip ["  a b  "; "   "; ""; " 　가　 "] = ["a b"; ""; ""; "가"].
Proof. vm_compute. reflexivity. Qed.

Example device_names :
  map (fun v => DEVICE_MAP_get v "?")
    [JInt 4; JFloat 5; JInt 6; JInt 7; JStr "4"; JBool true; JNull; JList []]
  = [inr "CR1"; inr "BB1"; inr "BB2"; inr "?"; inr "?"; inr "?"; inr "?";
     inl (TypeError "unhashable type: 'list'")].
Proof. vm_compute. reflexivity. Qed.

(** ** TLS verification of outbound calls *)

Lemma environ_get_unset (env : environ) (name default : string) :
  is_set env name = false -> environ_get env name default = default.
Proof.
  induction env as [| [n v] env IH]; simpl; intros H; [reflexivity |].
  apply orb_false_iff in H as [Hn Hrest].
  rewrite Hn. now apply IH.
Qed.

Lemma environ_get_set (env : environ) (name default : string) :
  environ_get env name default <> default -> is_set env name = true.
Proof.
  intros H. destruct (is_set env name) eqn:E; [reflexivity |].
  exfalso. apply H. now apply environ_get_unset.
Qed.

(** C6, as the code has it: with [GW_VERIFY] unset, every call built by
    [gw_get] and [gw_post] carries [verify = False]; a call carries
    [verify = True] only when the variable is set and its value lowers to
    ["true"]. *)
Theorem gw_verify_off_unless_opted_in (env : environ) :
  (is_set env "GW_VERIFY" = false ->
   forall path body timeout stream,
     verify (gw_get env path timeout) = false
     /\ verify (gw_post env path body timeout stream) = false)
  /\ (GW_VERIFY env = true ->
      is_set env "GW_VERIFY" = true
      /\ lower (environ_get env "GW_VERIFY" "false") = "true").
Proof.
  split.
  - intros Hunset path body timeout stream. simpl. unfold GW_VERIFY.
    rewrite (environ_get_unset _ _ _ Hunset). split; reflexivity.
  - unfold GW_VERIFY. intros H. apply String.eqb_eq in H. split; [| exact H].
    apply environ_get_set with (default := "false").
    intros E. rewrite E in H. discriminate H.
Qed.

Lemma gw_verify_off_unless_opted_in_witness :
  (verify (gw_get [("MODEL_NAME", "m")] "/ollama/api/tags" 30) = false
   /\ verify (gw_post [("MODEL_NAME", "m")] "/api/generate" JNull 30 false) = false)
  /\ (is_set [("GW_VERIFY", "True")] "GW_VERIFY" = true
      /\ lower (environ_get [("GW_VERIFY", "True")] "GW_VERIFY" "false") = "true").
Proof.
  split; [split |].
  - apply (proj1 (gw_verify_off_unless_opted_in [("MODEL_NAME", "m")])
             eq_refl "/ollama/api/tags" JNull 30%Z false).
  - apply (proj1 (gw_verify_off_unless_opted_in [("MODEL_NAME", "m")])
             eq_refl "/api/generate" JNull 30%Z false).
  - apply (proj2 (gw_verify_off_unless_opted_in [("GW_VERIFY", "True")])).
    reflexivity.
Defined.

(** C6 as the specification states it does not hold: in an empty
    environment the gateway call is built with certificate verification
    switched off. *)
Lemma gw_verify_default_not_enforced :
  is_set [] "GW_VERIFY" = false
  /\ verify (gw_post [] "/api/generate" JNull 30 false) <> true.
Proof. split; [reflexivity | discriminate]. Qed.

(** ** Latest-result mailbox *)

(** C9: at start-up the slot holds [{"text": ""}], a non-empty dict, so the
    first poll answers 200 with that empty-text result and clears the slot;
    it does not answer 202. *)
Theorem first_poll_after_startup :
  result LATEST_RESULT_STORE = JDict [("text", JStr "")]
  /\ get_analysis_results LATEST_RESULT_STORE
     = (mkResponse 200
          (JDict [("result", JDict [("text", JStr "")]);
                  ("timestamp", JNull); ("scenario_id", JNull)]),
        cleared)
  /\ status (fst (get_analysis_results LATEST_RESULT_STORE)) <> 202%Z.
Proof. repeat split. discriminate. Qed.

(** The body a view works on: the payload when it is true, [{}] otherwise. *)
Lemma body_of_truthy (payload : Json) :
  truthy payload = true -> get_json_or_empty payload = payload.
Proof. unfold get_json_or_empty. now intros ->. Qed.

Lemma body_of_falsy (payload : Json) :
  truthy payload = false -> get_json_or_empty payload = JDict [].
Proof. unfold get_json_or_empty. now intros ->. Qed.

Lemma body_truthy (payload : Json) :
  truthy (get_json_or_empty payload) = truthy payload.
Proof.
  destruct (truthy payload) eqn:T.
  - now rewrite body_of_truthy.
  - now rewrite body_of_falsy.
Qed.

Lemma truthy_dict (d : list (string * Json)) :
  truthy (JDict d) = true <-> d <> [].
Proof. destruct d; simpl; split; congruence. Qed.

(** A write succeeds exactly on a non-empty JSON object. *)
Lemma post_agent_process_200 (payload : Json) (now : float) (st : ResultStore) :
  status (fst (post_agent_process payload now st)) = 200%Z
  <-> exists d, payload = JDict d /\ d <> [].
Proof.
  unfold post_agent_process, api_agent_process.
  rewrite body_truthy.
  destruct (truthy payload) eqn:T; simpl.
  - rewrite (body_of_truthy _ T).
    destruct payload as [| b | z | f | s | l | d]; simpl;
      try (split; [discriminate | intros (d & E & _); discriminate]).
    split; [| reflexivity].
    intros _. exists d. split; [reflexivity |]. now apply truthy_dict.
  - split; [discriminate |].
    intros (d & -> & Hd). apply truthy_dict in Hd. congruence.
Qed.

(** C5: after a successful write, the first poll returns 200 with what was
    written and leaves all three fields [None]; the poll right after it
    returns 202 [{"status": "processing"}] and changes nothing. *)
Theorem result_delivered_once (payload : Json) (now : float) (st : ResultStore) :
  status (fst (post_agent_process payload now st)) = 200%Z ->
  let written := snd (post_agent_process payload now st) in
  let first := get_analysis_results written in
  let second := get_analysis_results (snd first) in
  exists text sid,
    Py.get payload "text" JNull = inr text
    /\ Py.get payload "scenario_id" JNull = inr sid
    /\ fst first
       = mkResponse 200
           (JDict [("result", JDict [("text", text)]);
                   ("timestamp", JFloat now); ("scenario_id", sid)])
    /\ snd first = cleared
    /\ second = (mkResponse 202 (JDict [("status", JStr "processing")]), cleared).
Proof.
  intros H. apply post_agent_process_200 in H as (d & -> & Hd).
  destruct d as [| kv d]; [now destruct Hd |].
  simpl. eexists. eexists. repeat split.
Qed.

Lemma result_delivered_once_witness :
  exists text sid,
    Py.get (JDict [("text", JStr "done"); ("scenario_id", JStr "2")]) "text" JNull
    = inr text
    /\ Py.get (JDict [("text", JStr "done"); ("scenario_id", JStr "2")])
         "scenario_id" JNull = inr sid
    /\ fst (get_analysis_results
              (snd (post_agent_process
                      (JDict [("text", JStr "done"); ("scenario_id", JStr "2")])
                      1.5 LATEST_RESULT_STORE)))
       = mkResponse 200
           (JDict [("result", JDict [("text", text)]);
                   ("timestamp", JFloat 1.5); ("scenario_id", sid)])
    /\ snd (get_analysis_results
              (snd (post_agent_process
                      (JDict [("text", JStr "done"); ("scenario_id", JStr "2")])
                      1.5 LATEST_RESULT_STORE))) = cleared
    /\ get_analysis_results
         (snd (get_analysis_results
                 (snd (post_agent_process
                         (JDict [("text", JStr "done"); ("scenario_id", JStr "2")])
                         1.5 LATEST_RESULT_STORE))))
       = (mkResponse 202 (JDict [("status", JStr "processing")]), cleared).
Proof.
  apply (result_delivered_once
           (JDict [("text", JStr "done"); ("scenario_id", JStr "2")])
           1.5 LATEST_RESULT_STORE).
  reflexivity.
Defined.

(** ** Removing an alarm by id *)

Lemma eq_str_spec (v : Json) (s : string) : eq_str v s = true <-> v = JStr s.
Proof.
  destruct v; simpl; split; try discriminate.
  - intros H. apply String.eqb_eq in H. now subst.
  - intros H. injection H as ->. apply String.eqb_refl.
Qed.

Lemma has_id_dec (alarm_id : string) (alarm : dict) :
  eq_str (dict_get alarm "id") alarm_id = true <-> has_id alarm_id alarm.
Proof. apply eq_str_spec. Qed.

Section Filter.
Context {A : Type} (keep : A -> bool).

Lemma filter_keeps_all (l : list A) :
  (forall a, In a l -> keep a = true) -> filter keep l = l.
Proof.
  induction l as [| x l IH]; simpl; intros H; [reflexivity |].
  rewrite (H x (or_introl eq_refl)). f_equal. apply IH.
  intros a Ha. apply H. now right.
Qed.

Lemma filter_no_longer (l : list A) :
  (List.length (filter keep l) <= List.length l)%nat.
Proof.
  induction l as [| x l IH]; simpl; [lia |].
  destruct (keep x); simpl; lia.
Qed.

Lemma filter_drops_one (l : list A) :
  (exists a, In a l /\ keep a = false) ->
  (List.length (filter keep l) < List.length l)%nat.
Proof.
  induction l as [| x l IH]; simpl; intros (a & Ha & Hk); [contradiction |].
  destruct (keep x) eqn:Kx; simpl.
  - destruct Ha as [-> | Ha]; [congruence |].
    assert (List.length (filter keep l) < List.length l)%nat
      by (apply IH; eauto).
    lia.
  - pose proof (filter_no_longer l). lia.
Qed.

End Filter.

Lemma filter_removed (alarm_id : string) (store : list dict) :
  removed alarm_id store
    (filter (fun alarm => negb (eq_str (dict_get alarm "id") alarm_id)) store).
Proof.
  induction store as [| alarm store IH]; simpl; [constructor |].
  destruct (eq_str (dict_get alarm "id") alarm_id) eqn:E; simpl.
  - apply removed_drop; [now apply has_id_dec | exact IH].
  - apply removed_keep; [| exact IH].
    intros H. apply has_id_dec in H. congruence.
Qed.

(** C7: when no stored alarm carries [alarm_id] the answer is 404 and the
    store is the same list; when one does, the answer is 200 and the store
    loses exactly the entries with that id. *)
Theorem ignore_alarm_by_id (alarm_id : string) (ALARM_STORE : list dict) :
  ((forall alarm, In alarm ALARM_STORE -> ~ has_id alarm_id alarm) ->
   api_ignore_alarm alarm_id ALARM_STORE
   = (mkResponse 404 (JDict [("error", JStr "Alarm ID not found")]), ALARM_STORE))
  /\ ((exists alarm, In alarm ALARM_STORE /\ has_id alarm_id alarm) ->
      status (fst (api_ignore_alarm alarm_id ALARM_STORE)) = 200%Z
      /\ removed alarm_id ALARM_STORE (snd (api_ignore_alarm alarm_id ALARM_STORE))).
Proof.
  unfold api_ignore_alarm. split.
  - intros Habsent. rewrite filter_keeps_all.
    + now rewrite Nat.ltb_irrefl.
    + intros alarm Hin.
      destruct (eq_str (dict_get alarm "id") alarm_id) eqn:E; [| reflexivity].
      apply has_id_dec in E. now destruct (Habsent alarm Hin).
  - intros (alarm & Hin & Hid).
    match goal with
    | |- context [Nat.ltb ?a ?b] => assert (Hlt : Nat.ltb a b = true)
    end.
    { apply Nat.ltb_lt. apply filter_drops_one. exists alarm. split; [exact Hin |].
      apply has_id_dec in Hid. now rewrite Hid. }
    rewrite Hlt. simpl. split; [reflexivity | apply filter_removed].
Qed.

Lemma ignore_alarm_by_id_witness :
  api_ignore_alarm "c" [alarm_a; alarm_b]
  = (mkResponse 404 (JDict [("error", JStr "Alarm ID not found")]),
     [alarm_a; alarm_b])
  /\ status (fst (api_ignore_alarm "a" [alarm_a; alarm_b])) = 200%Z
  /\ removed "a" [alarm_a; alarm_b] (snd (api_ignore_alarm "a" [alarm_a; alarm_b])).
Proof.
  split.
  - apply (proj1 (ignore_alarm_by_id "c" [alarm_a; alarm_b])).
    intros alarm [<- | [<- | []]]; discriminate.
  - apply (proj2 (ignore_alarm_by_id "a" [alarm_a; alarm_b])).
    exists alarm_a. split; [now left | reflexivity].
Defined.

(** ** Blank queries are refused without a gateway call *)








(** A [query] that is not a string has no [strip]: the view raises before
    any call, and the answer is 500. *)
Example analyze_null_query :
  post_analyze [] 30 (fun _ => UpJson (JDict []))
    (JDict [("query", JNull)])
  = (internal_error, []).
Proof. reflexivity. Qed.

(** A query with anything else in it does reach the gateway. *)
Example analyze_calls_gateway :
  snd (post_analyze [] 30 (fun _ => UpJson (JDict [("response", JStr "ok")]))
         (JDict [("query", JStr " why? ")]))
  = [mkOutbound "POST" "https://223.194.92.152:443/api/generate"
       (JDict [("model", JStr "gpt-oss:20b"); ("prompt", JStr " why? ");
               ("stream", JBool false)])
       30 false false].
Proof. reflexivity. Qed.

(** ** Alarm ingestion *)

(** Every early [return] of the scenario chain is a 400. *)
Lemma unified_alarm_data_early (scenario_id : string) (body : Json)
  (uuid4 : string) (early : Response) :
  unified_alarm_data scenario_id body uuid4 = inr (inl early) ->
  status early = 400%Z.
Proof.
  unfold unified_alarm_data. intros H. view_cases H;
    try discriminate H; injection H as <-; reflexivity.
Qed.

Lemma post_alerts_built (scenario_id : string) (payload : Json) (uuid4 : string)
  (alarm : dict) (ALARM_STORE : list dict) :
  built scenario_id payload uuid4 = Some alarm ->
  post_alerts scenario_id payload uuid4 ALARM_STORE
  = (success (store_alarm ALARM_STORE alarm), store_alarm ALARM_STORE alarm).
Proof.
  unfold built, post_alerts, api_alerts. rewrite body_truthy.
  destruct (truthy payload) eqn:T; [| discriminate].
  rewrite (body_of_truthy _ T).
  destruct (unified_alarm_data scenario_id payload uuid4) as [e | [early | a]];
    try discriminate.
  now intros [= ->].
Qed.

(** A request that gets no alarm stored is answered 400 or 500 and leaves
    the store as it found it. *)
Lemma post_alerts_not_built (scenario_id : string) (payload : Json)
  (uuid4 : string) (ALARM_STORE : list dict) :
  built scenario_id payload uuid4 = None ->
  snd (post_alerts scenario_id payload uuid4 ALARM_STORE) = ALARM_STORE
  /\ (status (fst (post_alerts scenario_id payload uuid4 ALARM_STORE)) = 400%Z
      \/ status (fst (post_alerts scenario_id payload uuid4 ALARM_STORE)) = 500%Z).
Proof.
  unfold built, post_alerts, api_alerts. rewrite body_truthy.
  destruct (truthy payload) eqn:T; simpl.
  - rewrite (body_of_truthy _ T).
    destruct (unified_alarm_data scenario_id payload uuid4)
      as [e | [early | a]] eqn:U; simpl; try discriminate; intros _.
    + split; [reflexivity | now right].
    + split; [reflexivity | left]. now apply unified_alarm_data_early in U.
  - intros _. split; [reflexivity | now left].
Qed.


Lemma post_alerts_200 (scenario_id : string) (payload : Json) (uuid4 : string)
  (ALARM_STORE : list dict) :
  status (fst (post_alerts scenario_id payload uuid4 ALARM_STORE)) = 200%Z ->
  exists alarm, built scenario_id payload uuid4 = Some alarm.
Proof.
  destruct (built scenario_id payload uuid4) as [alarm |] eqn:B; [eauto |].
  destruct (post_alerts_not_built _ _ _ ALARM_STORE B) as [_ [H | H]];
    rewrite H; discriminate.
Qed.

Lemma store_alarm_length (ALARM_STORE : list dict) (alarm : dict) :
  (List.length ALARM_STORE <= MAX_ALARMS)%nat ->
  (List.length (store_alarm ALARM_STORE alarm) <= MAX_ALARMS)%nat.
Proof.
  unfold store_alarm, MAX_ALARMS. intros H.
  destruct (Nat.leb_spec 3 (List.length ALARM_STORE)) as [Hfull | Hroom];
    rewrite length_app; simpl.
  - destruct ALARM_STORE; simpl in *; lia.
  - lia.
Qed.

(** X23: no store the process can reach from start-up, by ingestions and
    removals in any order, holds more than [MAX_ALARMS] alarms. *)
Lemma reachable_bounded (ALARM_STORE : list dict) :
  reachable ALARM_STORE -> (List.length ALARM_STORE <= MAX_ALARMS)%nat.
Proof.
  induction 1 as [| scenario_id payload uuid4 st _ IH | alarm_id st _ IH].
  - unfold MAX_ALARMS. simpl. lia.
  - destruct (built scenario_id payload uuid4) as [alarm |] eqn:B.
    + rewrite (post_alerts_built _ _ _ _ _ B). simpl.
      now apply store_alarm_length.
    + now rewrite (proj1 (post_alerts_not_built _ _ _ st B)).
  - unfold api_ignore_alarm.
    pose proof (filter_no_longer
                  (fun alarm => negb (eq_str (dict_get alarm "id") alarm_id)) st).
    destruct (Nat.ltb _ _); simpl; lia.
Qed.

(** C10: the body of a 200 answer lists the whole store as it stands after
    the append: what was stored before (less the evicted oldest entry when
    the store was full), oldest first, then the new alarm; at most three
    entries when the store held at most three. *)
Theorem alerts_response_lists_store (scenario_id : string) (payload : Json)
  (uuid4 : string) (ALARM_STORE : list dict) :
  let response := fst (post_alerts scenario_id payload uuid4 ALARM_STORE) in
  let after := snd (post_alerts scenario_id payload uuid4 ALARM_STORE) in
  status response = 200%Z ->
  body response = JDict [("status", JStr "success");
                         ("alarms", JList (map JDict after))]
  /\ (exists alarm,
        built scenario_id payload uuid4 = Some alarm
        /\ after = ((if Nat.leb MAX_ALARMS (List.length ALARM_STORE)
                     then tl ALARM_STORE else ALARM_STORE) ++ [alarm])%list)
  /\ ((List.length ALARM_STORE <= MAX_ALARMS)%nat ->
      (List.length after <= MAX_ALARMS)%nat).
Proof.
  intros response after H.
  destruct (post_alerts_200 _ _ _ _ H) as (alarm & B).
  subst response after. rewrite (post_alerts_built _ _ _ _ _ B). simpl.
  split; [reflexivity |]. split.
  - exists alarm. split; [exact B | reflexivity].
  - apply store_alarm_length.
Qed.

(** *** Sequences of ingestions *)

Lemma newest_map {A B : Type} (f : A -> B) (n : nat) (l : list A) :
  map f (newest n l) = newest n (map f l).
Proof. unfold newest. now rewrite length_map, skipn_map. Qed.

Lemma newest_app_long {A : Type} (n : nat) (old l : list A) :
  (n <= List.length l)%nat -> newest n (old ++ l) = newest n l.
Proof.
  unfold newest. intros H. rewrite length_app, skipn_app.
  rewrite skipn_all2 by lia. simpl. f_equal. lia.
Qed.

Lemma tl_skipn {A : Type} (n : nat) (l : list A) :
  tl (skipn n l) = skipn (S n) l.
Proof.
  revert l. induction n as [| n IH]; intros [| x l]; try reflexivity.
  change (tl (skipn n l) = skipn (S n) l). apply IH.
Qed.

Lemma store_alarm_newest (l : list dict) (alarm : dict) :
  store_alarm (newest MAX_ALARMS l) alarm = newest MAX_ALARMS (l ++ [alarm]).
Proof.
  unfold store_alarm, newest, MAX_ALARMS.
  rewrite length_skipn, length_app. change (List.length [alarm]) with 1%nat.
  destruct (Nat.leb_spec 3 (List.length l - (List.length l - 3))) as [Hfull | Hroom].
  - assert (Hlen : (3 <= List.length l)%nat) by lia.
    rewrite skipn_app.
    replace (List.length l + 1 - 3 - List.length l)%nat with 0%nat by lia.
    simpl. f_equal.
    replace (List.length l + 1 - 3)%nat with (S (List.length l - 3)) by lia.
    now rewrite tl_skipn.
  - replace (List.length l - 3)%nat with 0%nat by lia.
    replace (List.length l + 1 - 3)%nat with 0%nat by lia.
    reflexivity.
Qed.

(** Appending one by one keeps the newest [MAX_ALARMS] of everything the
    store has seen. *)
Lemma fold_store_alarm (alarms ALARM_STORE : list dict) :
  (List.length ALARM_STORE <= MAX_ALARMS)%nat ->
  fold_left store_alarm alarms ALARM_STORE
  = newest MAX_ALARMS (ALARM_STORE ++ alarms).
Proof.
  intros Hlen. induction alarms as [| alarm alarms IH] using rev_ind.
  - simpl. rewrite app_nil_r. unfold newest.
    now replace (List.length ALARM_STORE - MAX_ALARMS)%nat with 0%nat by lia.
  - rewrite fold_left_app. simpl. rewrite IH, store_alarm_newest.
    now rewrite app_assoc.
Qed.

Lemma newest_length {A : Type} (n : nat) (l : list A) :
  (List.length (newest n l) <= n)%nat.
Proof. unfold newest. rewrite length_skipn. lia. Qed.

(** When every answer is a 200, every request built an alarm and the store
    took them in order. *)
Lemma serve_all_success (reqs : list Ingest) (ALARM_STORE : list dict) :
  Forall (fun response => status response = 200%Z)
    (fst (serve_all reqs ALARM_STORE)) ->
  exists alarms,
    map built_by reqs = map Some alarms
    /\ snd (serve_all reqs ALARM_STORE) = fold_left store_alarm alarms ALARM_STORE.
Proof.
  revert ALARM_STORE. induction reqs as [| r reqs IH]; intros ALARM_STORE; simpl.
  - intros _. exists []. split; reflexivity.
  - destruct (ingest r ALARM_STORE) as [response after] eqn:E.
    destruct (serve_all reqs after) as [responses final] eqn:S. simpl.
    intros H. inversion H as [| ? ? H200 Hrest]; subst.
    assert (H200' : status (fst (ingest r ALARM_STORE)) = 200%Z) by now rewrite E.
    destruct (post_alerts_200 _ _ _ _ H200') as (alarm & B).
    unfold ingest in E. rewrite (post_alerts_built _ _ _ _ _ B) in E.
    injection E as _ <-.
    specialize (IH (store_alarm ALARM_STORE alarm)). rewrite S in IH.
    destruct (IH Hrest) as (alarms & Hmap & Hfinal).
    exists (alarm :: alarms). simpl. split.
    + unfold built_by at 1. now rewrite B, Hmap.
    + exact Hfinal.
Qed.

(** C1: starting from a store of at most three alarms, a run of successful
    ingestions ends with at most three alarms stored (and so does each of
    its prefixes, which are such runs too); after more than three of them
    the store holds the alarms built by the last three requests, oldest
    first. *)
Theorem alarm_store_bounded_fifo (reqs : list Ingest) (ALARM_STORE : list dict) :
  (List.length ALARM_STORE <= MAX_ALARMS)%nat ->
  Forall (fun response => status response = 200%Z)
    (fst (serve_all reqs ALARM_STORE)) ->
  (List.length (snd (serve_all reqs ALARM_STORE)) <= MAX_ALARMS)%nat
  /\ ((MAX_ALARMS < List.length reqs)%nat ->
      map Some (snd (serve_all reqs ALARM_STORE))
      = map built_by (newest MAX_ALARMS reqs)).
Proof.
  intros Hlen Hok.
  destruct (serve_all_success reqs ALARM_STORE Hok) as (alarms & Hmap & ->).
  rewrite (fold_store_alarm alarms ALARM_STORE Hlen). split.
  - apply newest_length.
  - intros Hmany.
    assert (Hsame : List.length alarms = List.length reqs).
    { rewrite <- (length_map Some alarms), <- Hmap. apply length_map. }
    rewrite newest_app_long by lia.
    now rewrite !newest_map, Hmap.
Qed.

Lemma alarm_store_bounded_fifo_witness :
  (List.length (snd (serve_all four_requests [alarm_a])) <= MAX_ALARMS)%nat
  /\ map Some (snd (serve_all four_requests [alarm_a]))
     = map built_by (newest MAX_ALARMS four_requests).
Proof.
  destruct (alarm_store_bounded_fifo four_requests [alarm_a]) as [Hlen Hfifo].
  - unfold MAX_ALARMS. simpl. lia.
  - vm_compute. repeat constructor.
  - split; [exact Hlen | apply Hfifo; unfold MAX_ALARMS; simpl; lia].
Defined.

Lemma alerts_response_lists_store_witness :
  let response := fst (post_alerts "1" crc_payload "u-3" [alarm_a; alarm_b]) in
  let after := snd (post_alerts "1" crc_payload "u-3" [alarm_a; alarm_b]) in
  body response = JDict [("status", JStr "success");
                         ("alarms", JList (map JDict after))]
  /\ (exists alarm,
        built "1" crc_payload "u-3" = Some alarm
        /\ after = [alarm_a; alarm_b; alarm])
  /\ ((List.length [alarm_a; alarm_b] <= MAX_ALARMS)%nat ->
      (List.length after <= MAX_ALARMS)%nat).
Proof.
  apply (alerts_response_lists_store "1" crc_payload "u-3" [alarm_a; alarm_b]).
  vm_compute. reflexivity.
Defined.

(** ** The interface-error example *)

(** C4, as the code has it: the example is accepted; the alarm names the
    device CR1, and its description is the error-rate text, the line-break
    marker and then the interlink warning for ge-0/0/1: the warning closes
    the description. *)
Theorem crc_example_alarm (uuid4 : string) (ALARM_STORE : list dict) :
  exists alarm,
    post_alerts "1" crc_payload uuid4 ALARM_STORE
    = (success (store_alarm ALARM_STORE alarm), store_alarm ALARM_STORE alarm)
    /\ dict_get alarm "id" = JStr uuid4
    /\ dict_get alarm "device" = JStr "CR1"
    /\ dict_get alarm "description"
       = JStr ("Interface ge-0/0/1 error rate - 12.5%<br>"
               ++ interlink_warning "ge-0/0/1").
Proof.
  eexists. split.
  - apply post_alerts_built. reflexivity.
  - repeat split.
Qed.

(** C4 as the specification states it does not hold: the description of
    the example's alarm does not begin with the warning. *)
Lemma crc_example_warning_not_prefix :
  exists alarm description,
    snd (post_alerts "1" crc_payload "u-1" []) = [alarm]
    /\ dict_get alarm "description" = JStr description
    /\ String.prefix (interlink_warning "ge-0/0/1") description = false.
Proof. eexists. eexists. repeat split. Qed.

(** ** Requests the scenario chain refuses *)

Lemma DEVICE_MAP_get_hashable (device_id : Json) (default : string) :
  hashable device_id = true ->
  exists device_name, DEVICE_MAP_get device_id default = inr device_name.
Proof. destruct device_id; simpl; try discriminate; eauto. Qed.

Lemma DEVICE_MAP_get_unhashable (device_id : Json) (default : string) :
  hashable device_id = false ->
  exists e, DEVICE_MAP_get device_id default = inl e.
Proof. destruct device_id; simpl; try discriminate; eauto. Qed.








Lemma unsupported_refused (scenario_id : string) (body : Json) (uuid4 : string) :
  ~ supported scenario_id ->
  unified_alarm_data scenario_id body uuid4
  = inr (inl (bad_request "invalid or unsupported scenario_id")).
Proof.
  unfold supported, unified_alarm_data. intros H.
  destruct (String.eqb_spec scenario_id "1"); [tauto |].
  destruct (String.eqb_spec scenario_id "3"); [tauto |].
  destruct (String.eqb_spec scenario_id "2"); [tauto |].
  reflexivity.
Qed.

(** An empty body always gets as far as the check it fails. *)
Lemma reaches_check_empty (scenario_id : string) (payload : Json) :
  truthy payload = false -> reaches_check scenario_id payload.
Proof.
  intros T d ->. destruct d as [| kv d]; [| discriminate T].
  split; [reflexivity | intros _; now left].
Qed.





(** * Further properties of the routes *)

(** ** Mailbox *)

(** X1: whatever the mailbox holds, the poll that follows a poll answers 202
    and changes nothing: no result is handed out twice. *)
Theorem poll_after_poll (st : ResultStore) :
  get_analysis_results (snd (get_analysis_results st))
  = (processing, snd (get_analysis_results st)).
Proof.
  unfold get_analysis_results.
  destruct (truthy (result st)) eqn:T; simpl; [reflexivity |].
  now rewrite T.
Qed.

(** X2: a write that is accepted on one mailbox state is accepted on any
    other and leaves the same mailbox: what was waiting unread is
    overwritten, not queued. *)
Theorem write_overwrites (payload : Json) (now : float) (st st' : ResultStore) :
  status (fst (post_agent_process payload now st)) = 200%Z ->
  post_agent_process payload now st' = post_agent_process payload now st.
Proof.
  intros H. apply post_agent_process_200 in H as (d & -> & Hd).
  destruct d as [| kv d]; [now destruct Hd | reflexivity].
Qed.

Lemma write_overwrites_witness :
  post_agent_process (JDict [("text", JStr "new")]) 2
    (mkResultStore (JDict [("text", JStr "old")]) (JFloat 1) (JStr "3"))
  = post_agent_process (JDict [("text", JStr "new")]) 2 LATEST_RESULT_STORE.
Proof.
  apply (write_overwrites (JDict [("text", JStr "new")]) 2 LATEST_RESULT_STORE).
  reflexivity.
Defined.

(** X3: a write that is not answered 200 is answered 400 or 500 and leaves
    the mailbox as it was, so a result waiting there is still delivered. *)
Theorem refused_write_keeps_mailbox (payload : Json) (now : float)
  (st : ResultStore) :
  status (fst (post_agent_process payload now st)) <> 200%Z ->
  snd (post_agent_process payload now st) = st
  /\ (status (fst (post_agent_process payload now st)) = 400%Z
      \/ status (fst (post_agent_process payload now st)) = 500%Z).
Proof.
  unfold post_agent_process, api_agent_process. rewrite body_truthy.
  destruct (truthy payload) eqn:T; simpl.
  - rewrite (body_of_truthy _ T).
    destruct payload; simpl; try (intros _; split; [reflexivity | now right]).
    congruence.
  - intros _. split; [reflexivity | now left].
Qed.

Lemma refused_write_keeps_mailbox_witness :
  snd (post_agent_process (JList [JInt 1]) 2 LATEST_RESULT_STORE)
  = LATEST_RESULT_STORE
  /\ (status (fst (post_agent_process (JList [JInt 1]) 2 LATEST_RESULT_STORE))
      = 400%Z
      \/ status (fst (post_agent_process (JList [JInt 1]) 2 LATEST_RESULT_STORE))
         = 500%Z).
Proof.
  apply (refused_write_keeps_mailbox (JList [JInt 1]) 2 LATEST_RESULT_STORE).
  discriminate.
Defined.

(** ** Alarm store *)

(** X4: after an accepted ingestion, the dashboard poll answers 200 with
    the very list the ingestion answered under [alarms]. *)
Theorem poll_shows_ingested (scenario_id : string) (payload : Json)
  (uuid4 : string) (ALARM_STORE : list dict) :
  let served := post_alerts scenario_id payload uuid4 ALARM_STORE in
  status (fst served) = 200%Z ->
  status (get_current_alarms (snd served)) = 200%Z
  /\ body (fst served)
     = JDict [("status", JStr "success");
              ("alarms", body (get_current_alarms (snd served)))].
Proof.
  intros served H. subst served.
  destruct (post_alerts_200 _ _ _ _ H) as (alarm & B).
  rewrite (post_alerts_built _ _ _ _ _ B). simpl.
  unfold get_current_alarms, store_alarm.
  destruct (Nat.leb MAX_ALARMS (List.length ALARM_STORE));
    [destruct (tl ALARM_STORE) | destruct ALARM_STORE]; split; reflexivity.
Qed.

Lemma poll_shows_ingested_witness :
  status (get_current_alarms (snd (post_alerts "1" crc_payload "u-1" []))) = 200%Z
  /\ body (fst (post_alerts "1" crc_payload "u-1" []))
     = JDict [("status", JStr "success");
              ("alarms",
               body (get_current_alarms (snd (post_alerts "1" crc_payload "u-1" []))))].
Proof.
  apply (poll_shows_ingested "1" crc_payload "u-1" []).
  vm_compute. reflexivity.
Defined.

Lemma filter_twice {A : Type} (keep : A -> bool) (l : list A) :
  filter keep (filter keep l) = filter keep l.
Proof.
  apply filter_keeps_all. intros a Ha. now apply filter_In in Ha.
Qed.

(** X5: removing an id is idempotent: once the route has run for an id, no
    stored alarm carries it, and running it again answers 404 and leaves the
    store as it is. *)
Theorem ignore_again (alarm_id : string) (ALARM_STORE : list dict) :
  let after := snd (api_ignore_alarm alarm_id ALARM_STORE) in
  fresh alarm_id after
  /\ api_ignore_alarm alarm_id after = (not_found_alarm, after).
Proof.
  assert (E : snd (api_ignore_alarm alarm_id ALARM_STORE)
              = filter (fun alarm => negb (eq_str (dict_get alarm "id") alarm_id))
                  ALARM_STORE).
  { unfold api_ignore_alarm. now destruct (Nat.ltb _ _). }
  simpl. rewrite E. split.
  - intros alarm Hin Hid. apply filter_In in Hin as [_ Hkeep].
    apply has_id_dec in Hid. rewrite Hid in Hkeep. discriminate.
  - unfold api_ignore_alarm. rewrite filter_twice.
    now rewrite Nat.ltb_irrefl.
Qed.

Lemma built_id (scenario_id : string) (payload : Json) (uuid4 : string)
  (alarm : dict) :
  built scenario_id payload uuid4 = Some alarm -> has_id uuid4 alarm.
Proof.
  unfold built. destruct (truthy payload); [| discriminate].
  destruct (unified_alarm_data scenario_id payload uuid4)
    as [e | [early | a]] eqn:U; try discriminate.
  intros [= ->]. unfold unified_alarm_data in U. view_cases U;
    try discriminate U; injection U as <-; reflexivity.
Qed.

Lemma kept_sublist (ALARM_STORE : list dict) (alarm : dict) :
  In alarm (kept ALARM_STORE) -> In alarm ALARM_STORE.
Proof.
  unfold kept. destruct (Nat.leb _ _); [| trivial].
  destruct ALARM_STORE; simpl; auto.
Qed.

(** X6: ingesting and then removing the new alarm by its id is answered 200
    and gives back the store the ingestion appended to: the old store, less
    its oldest entry if it was full. *)
Theorem ingest_then_ignore (scenario_id : string) (payload : Json)
  (uuid4 : string) (ALARM_STORE : list dict) :
  status (fst (post_alerts scenario_id payload uuid4 ALARM_STORE)) = 200%Z ->
  fresh uuid4 ALARM_STORE ->
  api_ignore_alarm uuid4 (snd (post_alerts scenario_id payload uuid4 ALARM_STORE))
  = (removed_alarm, kept ALARM_STORE).
Proof.
  intros H Hfresh.
  destruct (post_alerts_200 _ _ _ _ H) as (alarm & B).
  rewrite (post_alerts_built _ _ _ _ _ B). simpl.
  pose proof (built_id _ _ _ _ B) as Hid. apply has_id_dec in Hid.
  unfold api_ignore_alarm, store_alarm. fold (kept ALARM_STORE).
  rewrite filter_app. simpl. rewrite Hid. simpl. rewrite app_nil_r.
  rewrite filter_keeps_all.
  - rewrite length_app. simpl.
    replace (Nat.ltb (List.length (kept ALARM_STORE))
               (List.length (kept ALARM_STORE) + 1)) with true; [reflexivity |].
    symmetry. apply Nat.ltb_lt. lia.
  - intros a Ha. apply kept_sublist in Ha.
    destruct (eq_str (dict_get a "id") uuid4) eqn:E; [| reflexivity].
    apply has_id_dec in E. now destruct (Hfresh a Ha).
Qed.

Lemma ingest_then_ignore_witness :
  api_ignore_alarm "u-9" (snd (post_alerts "1" crc_payload "u-9" [alarm_a; alarm_b]))
  = (removed_alarm, kept [alarm_a; alarm_b]).
Proof.
  apply (ingest_then_ignore "1" crc_payload "u-9" [alarm_a; alarm_b]).
  - vm_compute. reflexivity.
  - intros alarm [<- | [<- | []]]; discriminate.
Defined.

Lemma NoDup_snoc {A : Type} (l : list A) (x : A) :
  NoDup l -> ~ In x l -> NoDup (l ++ [x]).
Proof.
  induction 1 as [| y l Hy Hl IH]; simpl; intros Hx.
  - constructor; [tauto | constructor].
  - constructor.
    + rewrite in_app_iff. simpl. intuition congruence.
    + apply IH. tauto.
Qed.

Lemma NoDup_map_filter {A B : Type} (f : A -> B) (keep : A -> bool) (l : list A) :
  NoDup (map f l) -> NoDup (map f (filter keep l)).
Proof.
  induction l as [| x l IH]; simpl; intros H; [constructor |].
  inversion H as [| ? ? Hx Hl]; subst.
  destruct (keep x); simpl; [| now apply IH].
  constructor; [| now apply IH].
  intros Hin. apply Hx. apply in_map_iff in Hin as (y & Hy & Hin).
  apply in_map_iff. exists y. split; [exact Hy |].
  now apply filter_In in Hin.
Qed.

Lemma NoDup_ids_kept (ALARM_STORE : list dict) :
  NoDup (alarm_ids ALARM_STORE) -> NoDup (alarm_ids (kept ALARM_STORE)).
Proof.
  unfold kept. destruct (Nat.leb _ _); [| trivial].
  destruct ALARM_STORE; simpl; [trivial |]. now inversion 1.
Qed.

(** X7: the ids in the store stay pairwise distinct: an ingestion whose
    drawn id no stored alarm carries keeps them distinct, and so does every
    removal. *)
Theorem ids_stay_distinct (scenario_id : string) (payload : Json)
  (uuid4 alarm_id : string) (ALARM_STORE : list dict) :
  NoDup (alarm_ids ALARM_STORE) ->
  fresh uuid4 ALARM_STORE ->
  NoDup (alarm_ids (snd (post_alerts scenario_id payload uuid4 ALARM_STORE)))
  /\ NoDup (alarm_ids (snd (api_ignore_alarm alarm_id ALARM_STORE))).
Proof.
  intros Hdistinct Hfresh. split.
  - destruct (built scenario_id payload uuid4) as [alarm |] eqn:B.
    + rewrite (post_alerts_built _ _ _ _ _ B). simpl.
      unfold store_alarm. fold (kept ALARM_STORE).
      unfold alarm_ids. rewrite map_app. simpl.
      apply NoDup_snoc; [now apply NoDup_ids_kept |].
      intros Hin. apply in_map_iff in Hin as (a & Ha & Hin).
      apply kept_sublist in Hin. apply (Hfresh a Hin).
      unfold has_id. rewrite Ha. now apply built_id in B.
    + now rewrite (proj1 (post_alerts_not_built _ _ _ ALARM_STORE B)).
  - unfold api_ignore_alarm.
    destruct (Nat.ltb _ _); simpl; now apply NoDup_map_filter.
Qed.

Lemma ids_stay_distinct_witness :
  NoDup (alarm_ids (snd (post_alerts "1" crc_payload "u-9" [alarm_a; alarm_b])))
  /\ NoDup (alarm_ids (snd (api_ignore_alarm "a" [alarm_a; alarm_b]))).
Proof.
  apply (ids_stay_distinct "1" crc_payload "u-9" "a" [alarm_a; alarm_b]).
  - repeat constructor; simpl; intuition discriminate.
  - intros alarm [<- | [<- | []]]; discriminate.
Defined.

Lemma reachable_bounded_witness :
  (List.length
     (snd (api_ignore_alarm "u-1"
             (snd (post_alerts "1" crc_payload "u-2"
                     (snd (post_alerts "1" crc_payload "u-1" []))))))
   <= MAX_ALARMS)%nat.
Proof.
  apply (reachable_bounded
           (snd (api_ignore_alarm "u-1"
                   (snd (post_alerts "1" crc_payload "u-2"
                           (snd (post_alerts "1" crc_payload "u-1" []))))))).
  apply reachable_ignore. apply reachable_post. apply reachable_post.
  apply reachable_start.
Defined.

(** ** Acceptance of the three scenarios *)

Lemma truthy_default (k : string) (d : dict) (default : Json) :
  truthy default = false ->
  truthy (match lookup k d with Some x => x | None => default end)
  = truthy (dict_get d k).
Proof. unfold dict_get. destruct (lookup k d); simpl; congruence. Qed.

Lemma truthy_get_nonempty (d : dict) (k : string) :
  truthy (dict_get d k) = true -> truthy (JDict d) = true.
Proof. destruct d; [discriminate | reflexivity]. Qed.

(** Scenario 1 on an object: what the chain comes to once the device has a
    name. *)
Lemma scenario1_run (d : dict) (uuid4 device_name : string) :
  DEVICE_MAP_get (dict_get d "device")
    ("Unknown(" ++ str (dict_get d "device") ++ ")") = inr device_name ->
  unified_alarm_data "1" (JDict d) uuid4
  = if negb (all [truthy (dict_get d "device"); truthy (dict_get d "interface");
                  is_not_None (dict_get d "packet_loss");
                  truthy (dict_get d "alarm_type")])
    then inr (inl (bad_request "Missing data for scenario 1"))
    else
      inr (inr
        [("id", JStr uuid4);
         ("device", JStr device_name);
         ("title", JStr (device_name ++ " 장비 Interface "
                         ++ str (dict_get d "interface") ++ " CRC Error 발생"));
         ("description",
          JStr ("Interface " ++ str (dict_get d "interface") ++ " error rate - "
                ++ str (dict_get d "packet_loss") ++ "%<br>"
                ++ (if eq_str (dict_get d "interlink_status") "false"
                    then interlink_warning (str (dict_get d "interface"))
                    else "")));
         ("type", dict_get d "alarm_type");
         ("time", dict_get d "timestamp");
         ("optic_power_data",
          match lookup "optic_power" d with Some x => x | None => JDict [] end);
         ("show_optic_power_button", JBool true);
         ("interface_name", dict_get d "interface")]).
Proof.
  intros Hname.
  unfold unified_alarm_data. cbn [String.eqb Ascii.eqb Bool.eqb].
  cbn [get bind ret]. fold (dict_get d "device"). rewrite Hname.
  cbn [bind]. reflexivity.
Qed.

Lemma unhashable_raises (scenario_id : string) (d : dict) (uuid4 : string) :
  supported scenario_id ->
  hashable (dict_get d "device") = false ->
  exists e, unified_alarm_data scenario_id (JDict d) uuid4 = inl e.
Proof.
  intros Hs Hdev.
  destruct (DEVICE_MAP_get_unhashable _
              ("Unknown(" ++ str (dict_get d "device") ++ ")") Hdev) as (e & He).
  exists e. unfold unified_alarm_data.
  destruct Hs as [-> | [-> | ->]]; cbn [String.eqb Ascii.eqb Bool.eqb];
    cbn [get bind ret]; fold (dict_get d "device"); now rewrite He.
Qed.

(** The status of an ingestion on a non-empty object, from what the chain
    returns. *)
Lemma post_alerts_object (scenario_id : string) (d : dict) (uuid4 : string)
  (ALARM_STORE : list dict) :
  truthy (JDict d) = true ->
  status (fst (post_alerts scenario_id (JDict d) uuid4 ALARM_STORE)) = 200%Z
  <-> exists alarm,
        unified_alarm_data scenario_id (JDict d) uuid4 = inr (inr alarm).
Proof.
  intros T. split.
  - intros H. apply post_alerts_200 in H as (alarm & B).
    unfold built in B. rewrite T in B. exists alarm.
    destruct (unified_alarm_data scenario_id (JDict d) uuid4)
      as [e | [early | a]]; congruence.
  - intros (alarm & U).
    rewrite (post_alerts_built scenario_id (JDict d) uuid4 alarm); [reflexivity |].
    unfold built. now rewrite T, U.
Qed.

(** X8: scenario 1 accepts an object exactly when its device can be hashed
    and is true, its interface and alarm type are true, and its packet loss
    is not null: a packet loss of zero is accepted. *)
Theorem scenario1_accepted (d : dict) (uuid4 : string) (ALARM_STORE : list dict) :
  status (fst (post_alerts "1" (JDict d) uuid4 ALARM_STORE)) = 200%Z
  <-> hashable (dict_get d "device")
      && truthy (dict_get d "device") && truthy (dict_get d "interface")
      && is_not_None (dict_get d "packet_loss")
      && truthy (dict_get d "alarm_type") = true.
Proof.
  destruct (truthy (JDict d)) eqn:T.
  - rewrite (post_alerts_object _ _ _ _ T).
    destruct (hashable (dict_get d "device")) eqn:Hdev.
    + destruct (DEVICE_MAP_get_hashable _
                  ("Unknown(" ++ str (dict_get d "device") ++ ")") Hdev)
        as (name & Hname).
      rewrite (scenario1_run d uuid4 name Hname). unfold all. cbn [forallb].
      destruct (truthy (dict_get d "device")), (truthy (dict_get d "interface")),
        (is_not_None (dict_get d "packet_loss")),
        (truthy (dict_get d "alarm_type")); cbn;
        (split; [intros (alarm & E); congruence || reflexivity
                | intros E; try discriminate E; eauto]).
    + destruct (unhashable_raises "1" d uuid4 (or_introl eq_refl) Hdev) as (e & ->).
      split; [intros (alarm & E); discriminate | discriminate].
  - split.
    + unfold post_alerts, api_alerts. rewrite body_truthy, T. discriminate.
    + intros H. destruct d; [| discriminate T].
      rewrite !andb_true_iff in H. now destruct H as [[[[_ H] _] _] _].
Qed.

Lemma scenario1_accepted_witness :
  status (fst (post_alerts "1"
                 (JDict [("device", JInt 9); ("interface", JStr "xe-1");
                         ("packet_loss", JInt 0); ("alarm_type", JStr "minor")])
                 "u-1" [])) = 200%Z.
Proof.
  apply (proj2 (scenario1_accepted
                  [("device", JInt 9); ("interface", JStr "xe-1");
                   ("packet_loss", JInt 0); ("alarm_type", JStr "minor")]
                  "u-1" [])).
  reflexivity.
Defined.

(** Scenario 2 on an object whose [discard_rate] entry is absent or an
    object, once the device has a name. *)
Lemma scenario2_run (d : dict) (uuid4 device_name : string) :
  DEVICE_MAP_get (dict_get d "device")
    ("Unknown(" ++ str (dict_get d "device") ++ ")") = inr device_name ->
  discard_rate_entry_ok d ->
  let discard_rate :=
    match nested_discard_rate d with Some x => x | None => JFloat 0 end in
  unified_alarm_data "2" (JDict d) uuid4
  = if negb (all [truthy (dict_get d "device"); truthy (dict_get d "fpc_slot");
                  truthy (JStr log_description); truthy discard_rate])
    then inr (inl (bad_request "Missing data for scenario 2"))
    else
      inr (inr
        [("id", JStr uuid4);
         ("title", JStr (device_name ++ " 장비 FPC" ++ str (dict_get d "fpc_slot")
                         ++ " PFE Disable 발생"));
         ("description", JStr ("Service Impact Rate - " ++ str discard_rate ++ "%"));
         ("type", JStr "major");
         ("time", dict_get d "timestamp");
         ("show_optic_power_button", JBool false);
         ("show_interfaces_button", JBool false);
         ("show_log_button", JBool true);
         ("discard_data", discard_rate);
         ("log_description", JStr log_description)]).
Proof.
  intros Hname Hentry discard_rate.
  unfold unified_alarm_data. cbn [String.eqb Ascii.eqb Bool.eqb].
  cbn [get bind ret]. fold (dict_get d "device"). rewrite Hname.
  cbn [bind].
  assert (Hnested :
            get (match lookup "discard_rate" d with
                 | Some x => x
                 | None => JDict []
                 end) "discard_rate" (JFloat 0) = inr discard_rate).
  { subst discard_rate. unfold nested_discard_rate.
    destruct Hentry as [-> | (nested & ->)]; reflexivity. }
  rewrite Hnested. cbn [bind]. reflexivity.
Qed.

Lemma scenario2_bad_entry (d : dict) (uuid4 : string) (v : Json) :
  lookup "discard_rate" d = Some v ->
  is_object v = false ->
  exists e, unified_alarm_data "2" (JDict d) uuid4 = inl e.
Proof.
  intros Hv Hobj.
  unfold unified_alarm_data. cbn [String.eqb Ascii.eqb Bool.eqb].
  cbn [get bind ret].
  destruct (DEVICE_MAP_get _ _) as [e | name]; cbn [bind]; [eauto |].
  rewrite Hv. destruct v; try discriminate Hobj; cbn; eauto.
Qed.

(** When the scenario-2 chain runs through to an alarm. *)
Lemma scenario2_chain (d : dict) (uuid4 : string) :
  (exists alarm, unified_alarm_data "2" (JDict d) uuid4 = inr (inr alarm))
  <-> hashable (dict_get d "device")
      && truthy (dict_get d "device") && truthy (dict_get d "fpc_slot")
      && match nested_discard_rate d with
         | Some rate => truthy rate
         | None => false
         end = true.
Proof.
  - destruct (hashable (dict_get d "device")) eqn:Hdev.
    + destruct (DEVICE_MAP_get_hashable _
                  ("Unknown(" ++ str (dict_get d "device") ++ ")") Hdev)
        as (name & Hname).
      destruct (lookup "discard_rate" d) as [v |] eqn:Hv.
      * destruct (is_object v) eqn:Hobj.
        -- destruct v; try discriminate Hobj.
           rewrite (scenario2_run d uuid4 name Hname);
             [| right; eexists; exact Hv].
           unfold nested_discard_rate. rewrite Hv. unfold all. cbn [forallb].
           change (truthy (JStr log_description)) with true.
           destruct (truthy (dict_get d "device")),
             (truthy (dict_get d "fpc_slot")), (lookup "discard_rate" d0) as [x |];
             cbn; try destruct (truthy x); cbn;
             (split; [intros (alarm & E); congruence || reflexivity
                     | intros E; try discriminate E; eauto]).
        -- destruct (scenario2_bad_entry d uuid4 v Hv Hobj) as (e & ->).
           unfold nested_discard_rate. rewrite Hv.
           split; [intros (alarm & E); discriminate |].
           destruct v; try discriminate Hobj; rewrite !andb_false_r; discriminate.
      * rewrite (scenario2_run d uuid4 name Hname); [| now left].
        unfold nested_discard_rate. rewrite Hv. unfold all. cbn [forallb].
        change (truthy (JFloat 0)) with false. rewrite !andb_false_r. cbn.
        split; [intros (alarm & E); discriminate | discriminate].
    + destruct (unhashable_raises "2" d uuid4 (or_intror (or_introl eq_refl)) Hdev)
        as (e & ->).
      split; [intros (alarm & E); discriminate | discriminate].
Qed.

(** X9: scenario 2 accepts an object exactly when its device can be hashed
    and is true, its FPC slot is true, and [discard_rate.discard_rate] is
    there with a true value: a rate left out, or of zero, is refused. *)
Theorem scenario2_accepted (d : dict) (uuid4 : string) (ALARM_STORE : list dict) :
  status (fst (post_alerts "2" (JDict d) uuid4 ALARM_STORE)) = 200%Z
  <-> hashable (dict_get d "device")
      && truthy (dict_get d "device") && truthy (dict_get d "fpc_slot")
      && match nested_discard_rate d with
         | Some rate => truthy rate
         | None => false
         end = true.
Proof.
  destruct (truthy (JDict d)) eqn:T.
  - rewrite (post_alerts_object _ _ _ _ T). apply scenario2_chain.
  - split.
    + unfold post_alerts, api_alerts. rewrite body_truthy, T. discriminate.
    + intros H. destruct d; [| discriminate T].
      rewrite !andb_true_iff in H. now destruct H as [[[_ H] _] _].
Qed.

Lemma scenario2_accepted_witness :
  status (fst (post_alerts "2"
                 (JDict [("device", JInt 5); ("fpc_slot", JInt 8);
                         ("discard_rate", JDict [("discard_rate", JFloat 7.3)])])
                 "u-1" [])) = 200%Z.
Proof.
  apply (proj2 (scenario2_accepted
                  [("device", JInt 5); ("fpc_slot", JInt 8);
                   ("discard_rate", JDict [("discard_rate", JFloat 7.3)])]
                  "u-1" [])).
  reflexivity.
Defined.

(** Scenario 3 on an object, once the device has a name. *)
Lemma scenario3_run (d : dict) (uuid4 device_name : string) :
  DEVICE_MAP_get (dict_get d "device")
    ("Unknown(" ++ str (dict_get d "device") ++ ")") = inr device_name ->
  let inout_packet :=
    match lookup "inout_packet" d with Some x => x | None => JDict [] end in
  let interfaces_list :=
    match lookup "interfaces" d with Some x => x | None => JList [] end in
  unified_alarm_data "3" (JDict d) uuid4
  = if negb (all [truthy (dict_get d "device"); truthy (dict_get d "interface");
                  truthy (dict_get d "interfaces");
                  truthy (dict_get d "inout_packet");
                  truthy (dict_get d "drop_count")])
    then inr (inl (bad_request "Missing data for scenario 3"))
    else
      (severity <- get inout_packet "alarm_type" JNull ;;
       rate <- get inout_packet "traffic_diff" (JFloat 0) ;;
       ret (inr
         [("id", JStr uuid4);
          ("title", JStr (device_name ++ " Interface "
                          ++ str (dict_get d "interface")
                          ++ "에서 Blackhole 발생"));
          ("description", JStr ("Service Impact Rate - " ++ str rate ++ "%"));
          ("type", severity);
          ("time", dict_get d "timestamp");
          ("show_optic_power_button", JBool false);
          ("show_interfaces_button", JBool true);
          ("interfaces", interfaces_list)]))%py.
Proof.
  intros Hname inout_packet interfaces_list.
  unfold unified_alarm_data. cbn [String.eqb Ascii.eqb Bool.eqb].
  cbn [get bind ret]. fold (dict_get d "device"). rewrite Hname.
  cbn [bind].
  rewrite (truthy_default "interfaces" d (JList []) eq_refl).
  rewrite (truthy_default "inout_packet" d (JDict []) eq_refl).
  rewrite (truthy_default "drop_count" d (JDict []) eq_refl).
  reflexivity.
Qed.

(** When the scenario-3 chain runs through to an alarm. *)
Lemma scenario3_chain (d : dict) (uuid4 : string) :
  (exists alarm, unified_alarm_data "3" (JDict d) uuid4 = inr (inr alarm))
  <-> hashable (dict_get d "device")
      && truthy (dict_get d "device") && truthy (dict_get d "interface")
      && truthy (dict_get d "interfaces")
      && (truthy (dict_get d "inout_packet") && is_object (dict_get d "inout_packet"))
      && truthy (dict_get d "drop_count") = true.
Proof.
  - destruct (hashable (dict_get d "device")) eqn:Hdev.
    + destruct (DEVICE_MAP_get_hashable _
                  ("Unknown(" ++ str (dict_get d "device") ++ ")") Hdev)
        as (name & Hname).
      rewrite (scenario3_run d uuid4 name Hname). unfold all. cbn [forallb].
      set (dev := truthy (dict_get d "device")).
      set (ifc := truthy (dict_get d "interface")).
      set (ifs := truthy (dict_get d "interfaces")).
      set (dc := truthy (dict_get d "drop_count")).
      unfold dict_get.
      destruct (lookup "inout_packet" d) as [[| b | z | f | q | l | ip] |];
        destruct dev, ifc, ifs, dc;
        cbn; try destruct b; try destruct (z =? 0)%Z;
        try destruct (PrimFloat.eqb f 0); try destruct (q =? "");
        try destruct l; try destruct ip; cbn;
        (split; [intros (alarm & E); congruence || reflexivity
                | intros E; try discriminate E; eauto]).
    + destruct (unhashable_raises "3" d uuid4 (or_intror (or_intror eq_refl)) Hdev)
        as (e & ->).
      split; [intros (alarm & E); discriminate | discriminate].
Qed.

(** X10: scenario 3 accepts an object exactly when its device can be hashed
    and is true, its interface, interfaces and drop count are true, and its
    [inout_packet] is a non-empty object. *)
Theorem scenario3_accepted (d : dict) (uuid4 : string) (ALARM_STORE : list dict) :
  status (fst (post_alerts "3" (JDict d) uuid4 ALARM_STORE)) = 200%Z
  <-> hashable (dict_get d "device")
      && truthy (dict_get d "device") && truthy (dict_get d "interface")
      && truthy (dict_get d "interfaces")
      && (truthy (dict_get d "inout_packet") && is_object (dict_get d "inout_packet"))
      && truthy (dict_get d "drop_count") = true.
Proof.
  destruct (truthy (JDict d)) eqn:T.
  - rewrite (post_alerts_object _ _ _ _ T). apply scenario3_chain.
  - split.
    + unfold post_alerts, api_alerts. rewrite body_truthy, T. discriminate.
    + intros H. destruct d; [| discriminate T].
      rewrite !andb_true_iff in H. now destruct H as [[[[[_ H] _] _] _] _].
Qed.

Lemma scenario3_accepted_witness :
  status (fst (post_alerts "3"
                 (JDict [("device", JInt 6); ("interface", JStr "xe-2");
                         ("interfaces", JList [JStr "xe-2"]);
                         ("inout_packet", JDict [("alarm_type", JStr "critical")]);
                         ("drop_count", JDict [("in", JInt 3)])])
                 "u-1" [])) = 200%Z.
Proof.
  apply (proj2 (scenario3_accepted
                  [("device", JInt 6); ("interface", JStr "xe-2");
                   ("interfaces", JList [JStr "xe-2"]);
                   ("inout_packet", JDict [("alarm_type", JStr "critical")]);
                   ("drop_count", JDict [("in", JInt 3)])]
                  "u-1" [])).
  reflexivity.
Defined.

(** ** What the accepted alarm carries *)

Lemma built_object (scenario_id : string) (d : dict) (uuid4 : string)
  (alarm : dict) :
  built scenario_id (JDict d) uuid4 = Some alarm ->
  unified_alarm_data scenario_id (JDict d) uuid4 = inr (inr alarm).
Proof.
  unfold built. destruct (truthy (JDict d)); [| discriminate].
  destruct (unified_alarm_data scenario_id (JDict d) uuid4) as [e | [early | a]];
    congruence.
Qed.

Lemma DEVICE_MAP_get_resolved (device_id : Json) :
  hashable device_id = true ->
  DEVICE_MAP_get device_id ("Unknown(" ++ str device_id ++ ")")
  = inr (resolved_name device_id).
Proof.
  unfold DEVICE_MAP_get, DEVICE_MAP, resolved_name.
  destruct device_id; try discriminate; intros _; cbn [find fst];
    repeat match goal with
           | |- context [if ?c then _ else _] => destruct c
           end;
    reflexivity.
Qed.

(** X11: the alarm of an accepted scenario-1 request passes the alarm type,
    the timestamp and the interface through as sent; it names the device
    CR1, BB1 or BB2 for an id equal to 4, 5 or 6 and [Unknown(<id>)] for any
    other, in its [device] entry and in its title; and its description is
    the error-rate text, the line-break marker and then the interlink
    warning exactly when [interlink_status] is the string ["false"]. *)
Theorem scenario1_alarm (d : dict) (uuid4 : string) (alarm : dict) :
  built "1" (JDict d) uuid4 = Some alarm ->
  dict_get alarm "type" = dict_get d "alarm_type"
  /\ dict_get alarm "time" = dict_get d "timestamp"
  /\ dict_get alarm "interface_name" = dict_get d "interface"
  /\ dict_get alarm "show_optic_power_button" = JBool true
  /\ dict_get alarm "description"
     = JStr ("Interface " ++ str (dict_get d "interface") ++ " error rate - "
             ++ str (dict_get d "packet_loss") ++ "%<br>"
             ++ (if eq_str (dict_get d "interlink_status") "false"
                 then interlink_warning (str (dict_get d "interface"))
                 else ""))
  /\ dict_get alarm "device"
     = JStr (if int_key_eq 4 (dict_get d "device") then "CR1"
             else if int_key_eq 5 (dict_get d "device") then "BB1"
             else if int_key_eq 6 (dict_get d "device") then "BB2"
             else "Unknown(" ++ str (dict_get d "device") ++ ")")
  /\ dict_get alarm "title"
     = JStr (resolved_name (dict_get d "device") ++ " 장비 Interface "
             ++ str (dict_get d "interface") ++ " CRC Error 발생").
Proof.
  intros B. apply built_object in B.
  destruct (hashable (dict_get d "device")) eqn:Hdev.
  - rewrite (scenario1_run d uuid4 _ (DEVICE_MAP_get_resolved _ Hdev)) in B.
    destruct (negb _); [discriminate |]. injection B as <-.
    repeat split.
  - destruct (unhashable_raises "1" d uuid4 (or_introl eq_refl) Hdev) as (e & He).
    congruence.
Qed.

Lemma scenario1_alarm_witness :
  exists alarm,
    built "1"
      (JDict [("device", JFloat 5); ("interface", JStr "ge-0/0/1");
              ("packet_loss", JFloat 12.5); ("alarm_type", JStr "major")])
      "u-1" = Some alarm
    /\ dict_get alarm "type" = JStr "major"
    /\ dict_get alarm "device" = JStr "BB1"
    /\ dict_get alarm "description"
       = JStr "Interface ge-0/0/1 error rate - 12.5%<br>".
Proof.
  eexists. split; [reflexivity |].
  pose proof (scenario1_alarm
                [("device", JFloat 5); ("interface", JStr "ge-0/0/1");
                 ("packet_loss", JFloat 12.5); ("alarm_type", JStr "major")]
                "u-1" _ eq_refl) as (Htype & _ & _ & _ & Hdescr & Hdevice & _).
  split; [exact Htype |]. split; [exact Hdevice | exact Hdescr].
Defined.

(** X12: the alarm of an accepted scenario-2 request always has type
    ["major"], whatever the rate; it carries the nested rate, which is
    true, as [discard_data] and in its description, the fixed log
    description, the log button alone switched on, and no [device] entry. *)
Theorem scenario2_alarm (d : dict) (uuid4 : string) (alarm : dict) :
  built "2" (JDict d) uuid4 = Some alarm ->
  dict_get alarm "type" = JStr "major"
  /\ (exists rate,
        nested_discard_rate d = Some rate /\ truthy rate = true
        /\ dict_get alarm "discard_data" = rate
        /\ dict_get alarm "description"
           = JStr ("Service Impact Rate - " ++ str rate ++ "%"))
  /\ dict_get alarm "log_description" = JStr log_description
  /\ dict_get alarm "show_log_button" = JBool true
  /\ dict_get alarm "show_optic_power_button" = JBool false
  /\ dict_get alarm "show_interfaces_button" = JBool false
  /\ lookup "device" alarm = None.
Proof.
  intros B. apply built_object in B.
  assert (H200 : hashable (dict_get d "device")
                 && truthy (dict_get d "device") && truthy (dict_get d "fpc_slot")
                 && match nested_discard_rate d with
                    | Some rate => truthy rate
                    | None => false
                    end = true)
    by (apply (scenario2_chain d uuid4); eauto).
  rewrite !andb_true_iff in H200. destruct H200 as [[[Hdev _] _] Hrate].
  destruct (nested_discard_rate d) as [rate |] eqn:Hnested; [| discriminate].
  destruct (DEVICE_MAP_get_hashable _
              ("Unknown(" ++ str (dict_get d "device") ++ ")") Hdev)
    as (name & Hname).
  assert (Hentry : discard_rate_entry_ok d).
  { unfold nested_discard_rate in Hnested. unfold discard_rate_entry_ok.
    destruct (lookup "discard_rate" d) as [[| | | | | | n] |];
      try discriminate; eauto. }
  rewrite (scenario2_run d uuid4 name Hname Hentry), Hnested in B.
  destruct (negb _); [discriminate |]. injection B as <-.
  split; [reflexivity |]. split; [| repeat split].
  exists rate. repeat split. exact Hrate.
Qed.

Lemma scenario2_alarm_witness :
  exists alarm,
    built "2"
      (JDict [("device", JInt 5); ("fpc_slot", JInt 8);
              ("discard_rate", JDict [("discard_rate", JFloat 7.3)])])
      "u-1" = Some alarm
    /\ dict_get alarm "type" = JStr "major".
Proof.
  eexists. split; [reflexivity |].
  exact (proj1 (scenario2_alarm
                  [("device", JInt 5); ("fpc_slot", JInt 8);
                   ("discard_rate", JDict [("discard_rate", JFloat 7.3)])]
                  "u-1" _ eq_refl)).
Defined.

(** X13: the alarm of an accepted scenario-3 request takes its type from
    [inout_packet.alarm_type] (null when left out) and its impact rate from
    [inout_packet.traffic_diff] (0.0 when left out), passes the interfaces
    through, switches the interfaces button on, and has no [device] entry. *)
Theorem scenario3_alarm (d : dict) (uuid4 : string) (alarm : dict) :
  built "3" (JDict d) uuid4 = Some alarm ->
  exists inout_packet,
    lookup "inout_packet" d = Some (JDict inout_packet)
    /\ dict_get alarm "type" = dict_get inout_packet "alarm_type"
    /\ dict_get alarm "description"
       = JStr ("Service Impact Rate - "
               ++ str (match lookup "traffic_diff" inout_packet with
                       | Some rate => rate
                       | None => JFloat 0
                       end) ++ "%")
    /\ dict_get alarm "interfaces" = dict_get d "interfaces"
    /\ dict_get alarm "show_interfaces_button" = JBool true
    /\ dict_get alarm "show_optic_power_button" = JBool false
    /\ lookup "device" alarm = None.
Proof.
  intros B. apply built_object in B.
  assert (H200 : hashable (dict_get d "device")
                 && truthy (dict_get d "device") && truthy (dict_get d "interface")
                 && truthy (dict_get d "interfaces")
                 && (truthy (dict_get d "inout_packet")
                     && is_object (dict_get d "inout_packet"))
                 && truthy (dict_get d "drop_count") = true)
    by (apply (scenario3_chain d uuid4); eauto).
  rewrite !andb_true_iff in H200.
  destruct H200 as [[[[[Hdev _] _] Hifs] [_ Hobj]] _].
  destruct (DEVICE_MAP_get_hashable _
              ("Unknown(" ++ str (dict_get d "device") ++ ")") Hdev)
    as (name & Hname).
  rewrite (scenario3_run d uuid4 name Hname) in B.
  destruct (negb _); [discriminate |].
  unfold dict_get in Hobj, Hifs |- *.
  destruct (lookup "inout_packet" d) as [[| | | | | | ip] |]; try discriminate Hobj.
  destruct (lookup "interfaces" d) as [ifs |]; [| discriminate Hifs].
  cbn in B. injection B as <-.
  exists ip. repeat split.
Qed.

Lemma scenario3_alarm_witness :
  exists alarm inout_packet,
    built "3"
      (JDict [("device", JInt 6); ("interface", JStr "xe-2");
              ("interfaces", JList [JStr "xe-2"]);
              ("inout_packet", JDict [("alarm_type", JStr "critical")]);
              ("drop_count", JDict [("in", JInt 3)])])
      "u-1" = Some alarm
    /\ Some (JDict [("alarm_type", JStr "critical")]) = Some (JDict inout_packet)
    /\ dict_get alarm "type" = dict_get inout_packet "alarm_type".
Proof.
  eexists.
  destruct (scenario3_alarm
              [("device", JInt 6); ("interface", JStr "xe-2");
               ("interfaces", JList [JStr "xe-2"]);
               ("inout_packet", JDict [("alarm_type", JStr "critical")]);
               ("drop_count", JDict [("in", JInt 3)])]
              "u-1" _ eq_refl) as (ip & Hip & Htype & _).
  exists ip. split; [reflexivity |]. split; [exact Hip | exact Htype].
Defined.

(** ** What acceptance depends on *)

Lemma built_shape (scenario_id : string) (payload : Json) (uuid4 : string)
  (alarm : dict) :
  built scenario_id payload uuid4 = Some alarm ->
  exists rest,
    alarm = ("id", JStr uuid4) :: rest
    /\ forall uuid4', built scenario_id payload uuid4'
                      = Some (("id", JStr uuid4') :: rest).
Proof.
  unfold built. destruct (truthy payload); [| discriminate].
  unfold unified_alarm_data.
  intros H.
  repeat (cbn [bind ret raise] in H |- *;
          match type of H with
          | context [bind ?m _] => destruct m eqn:?
          | context [if ?c then _ else _] => destruct c eqn:?
          end);
    cbn [bind ret raise] in H |- *;
    try discriminate H; injection H as <-;
    eexists; (split; [reflexivity | intros uuid4'; reflexivity]).
Qed.

(** X14: whether a request is accepted depends on its scenario and payload
    only, not on the store it meets nor on the id drawn for it, and the id
    enters the alarm through the [id] entry alone: a request sent again is
    stored again, as an alarm that differs in its id only. *)
Theorem accepted_again (scenario_id : string) (payload : Json)
  (uuid4 uuid4' : string) (ALARM_STORE ALARM_STORE' : list dict) :
  status (fst (post_alerts scenario_id payload uuid4 ALARM_STORE)) = 200%Z ->
  exists rest,
    post_alerts scenario_id payload uuid4 ALARM_STORE
    = (success (store_alarm ALARM_STORE (("id", JStr uuid4) :: rest)),
       store_alarm ALARM_STORE (("id", JStr uuid4) :: rest))
    /\ post_alerts scenario_id payload uuid4' ALARM_STORE'
       = (success (store_alarm ALARM_STORE' (("id", JStr uuid4') :: rest)),
          store_alarm ALARM_STORE' (("id", JStr uuid4') :: rest)).
Proof.
  intros H. apply post_alerts_200 in H as (alarm & B).
  destruct (built_shape _ _ _ _ B) as (rest & -> & Hany).
  exists rest. split; apply post_alerts_built; [exact B | apply Hany].
Qed.

Lemma accepted_again_witness :
  exists rest,
    post_alerts "1" crc_payload "u-1" []
    = (success (store_alarm [] (("id", JStr "u-1") :: rest)),
       store_alarm [] (("id", JStr "u-1") :: rest))
    /\ post_alerts "1" crc_payload "u-2" (snd (post_alerts "1" crc_payload "u-1" []))
       = (success (store_alarm (snd (post_alerts "1" crc_payload "u-1" []))
                     (("id", JStr "u-2") :: rest)),
          store_alarm (snd (post_alerts "1" crc_payload "u-1" []))
            (("id", JStr "u-2") :: rest)).
Proof.
  apply (accepted_again "1" crc_payload "u-1" "u-2" []
           (snd (post_alerts "1" crc_payload "u-1" []))).
  vm_compute. reflexivity.
Defined.

(** X15: a body that is true but is not an object (a list, a number, a
    string, [true]) is answered 500 for the three scenarios, where the
    chain calls [get] on it, and 400 for any other scenario id; the store
    is left as it was. *)
Theorem non_object_body (scenario_id : string) (payload : Json)
  (uuid4 : string) (ALARM_STORE : list dict) :
  truthy payload = true ->
  is_object payload = false ->
  (supported scenario_id ->
   post_alerts scenario_id payload uuid4 ALARM_STORE
   = (internal_error, ALARM_STORE))
  /\ (~ supported scenario_id ->
      post_alerts scenario_id payload uuid4 ALARM_STORE
      = (bad_request "invalid or unsupported scenario_id", ALARM_STORE)).
Proof.
  intros T Hobj. unfold post_alerts, api_alerts.
  rewrite body_truthy, (body_of_truthy _ T), T. cbn [negb]. split.
  - intros [-> | [-> | ->]]; unfold unified_alarm_data;
      cbn [String.eqb Ascii.eqb Bool.eqb];
      destruct payload; try discriminate Hobj; reflexivity.
  - intros H. now rewrite (unsupported_refused _ _ _ H).
Qed.

Lemma non_object_body_witness :
  post_alerts "3" (JList [JInt 1]) "u-1" [alarm_a] = (internal_error, [alarm_a])
  /\ post_alerts "7" (JStr "x") "u-1" [alarm_a]
     = (bad_request "invalid or unsupported scenario_id", [alarm_a]).
Proof.
  split.
  - apply (proj1 (non_object_body "3" (JList [JInt 1]) "u-1" [alarm_a]
                    eq_refl eq_refl)).
    right. right. reflexivity.
  - apply (proj2 (non_object_body "7" (JStr "x") "u-1" [alarm_a]
                    eq_refl eq_refl)).
    intros [H | [H | H]]; discriminate H.
Defined.

(** ** Analysis queries *)

(** X16: [POST /api/analyze] calls the gateway at most once, and only for
    a string query with something but white space in it; the call is a POST
    of the model name, the query as sent (not stripped) and [stream: False]
    to [/api/generate].  Every other request is answered 400 or 500 with no
    call. *)
Theorem analyze_calls (env : environ) (LLM_TIMEOUT_S : Z)
  (gateway : Outbound -> Upstream) (payload : Json) :
  let served := post_analyze env LLM_TIMEOUT_S gateway payload in
  (exists q, asks payload q /\ snd served = [generate_call env LLM_TIMEOUT_S q])
  \/ (snd served = []
      /\ (status (fst served) = 400%Z \/ status (fst served) = 500%Z)).
Proof.
  unfold post_analyze, api_analyze, asks.
  destruct (get_json_or_empty payload) as [| b | z | f | t | l | d] eqn:Hbody;
    try (right; split; [reflexivity | now right]).
  cbn [get bind ret].
  destruct (lookup "query" d) as [[| b | z | f | q | l | d'] |] eqn:Hq;
    try (right; split; [reflexivity | now right]).
  - cbn [bind ret]. destruct (strip q =? "") eqn:Hblank.
    + right. cbn. rewrite Hblank. cbn. split; [reflexivity | now left].
    + left. exists q. split.
      * exists d. split; [reflexivity | split; [exact Hq |]].
        intros E. rewrite E in Hblank. discriminate.
      * cbn [truthy]. rewrite Hblank. cbn [negb].
        unfold llm_generate, gw_post, generate_call.
        destruct (gateway _) as [e | e [|] | data]; try reflexivity.
        destruct (get data "response" (JStr "")) as [[e | e] | v]; reflexivity.
  - right. cbn. split; [reflexivity | now left].
Qed.

(** X17: for such a query, a [RequestException] from the gateway is
    answered 502 with its message; an answer that decodes to an object is
    answered 202 with its [response] entry (the empty string when there is
    none) and the query as sent; an answer that decodes to anything else is
    answered 500. *)
Theorem analyze_outcomes (env : environ) (LLM_TIMEOUT_S : Z)
  (gateway : Outbound -> Upstream) (payload : Json) (q : string) :
  asks payload q ->
  let answer := fst (post_analyze env LLM_TIMEOUT_S gateway payload) in
  match gateway (generate_call env LLM_TIMEOUT_S q) with
  | UpRequestException e =>
      answer = mkResponse 502
                 (JDict [("error", JStr ("Ollama API request failed: " ++ e))])
  | UpJson (JDict data) =>
      answer = mkResponse 202
                 (JDict [("status", JStr "Analysis completed");
                         ("llm_response",
                          match lookup "response" data with
                          | Some text => text
                          | None => JStr ""
                          end);
                         ("query", JStr q)])
  | UpJson data =>
      answer = mkResponse 500
                 (JDict [("error",
                          JStr ("Analysis failed: '" ++ type_name data
                                ++ "' object has no attribute 'get'"))])
  | UpJsonError e as_request_exception =>
      status answer = if as_request_exception then 502%Z else 500%Z
  end.
Proof.
  intros (d & Hbody & Hq & Hblank).
  unfold post_analyze, api_analyze. rewrite Hbody. cbn [get bind ret].
  rewrite Hq. cbn [bind ret truthy].
  destruct (strip q =? "") eqn:E; [apply String.eqb_eq in E; contradiction |].
  cbn [negb]. unfold llm_generate, gw_post. fold (generate_call env LLM_TIMEOUT_S q).
  destruct (gateway (generate_call env LLM_TIMEOUT_S q)) as [e | e [|] | data];
    try reflexivity.
  destruct data; reflexivity.
Qed.

Lemma analyze_outcomes_witness :
  fst (post_analyze [] 30 (fun _ => UpJson (JDict [("response", JStr "ok")]))
         (JDict [("query", JStr " why? ")]))
  = mkResponse 202
      (JDict [("status", JStr "Analysis completed");
              ("llm_response", JStr "ok"); ("query", JStr " why? ")]).
Proof.
  apply (analyze_outcomes [] 30%Z
           (fun _ => UpJson (JDict [("response", JStr "ok")]))
           (JDict [("query", JStr " why? ")]) " why? ").
  exists [("query", JStr " why? ")]. repeat split. discriminate.
Defined.

(** ** The remediation proxy and the gateway wrappers *)

Lemma raise_for_status_ok (r : Net.RawResponse) :
  Net.raise_for_status r = inr tt <-> ~ error_status (Net.status_code r).
Proof.
  unfold Net.raise_for_status, error_status.
  destruct (400 <=? Net.status_code r)%Z eqn:A;
    destruct (Net.status_code r <? 500)%Z eqn:B;
    destruct (500 <=? Net.status_code r)%Z eqn:C;
    destruct (Net.status_code r <? 600)%Z eqn:D;
    rewrite ?Z.leb_le, ?Z.leb_gt, ?Z.ltb_lt, ?Z.ltb_ge in *;
    cbn; split; intros Hs; try discriminate Hs; try reflexivity; try lia;
    exfalso; apply Hs; lia.
Qed.

Lemma raise_for_status_raises (r : Net.RawResponse) :
  error_status (Net.status_code r) ->
  exists e, Net.raise_for_status r = inl (Net.RequestException e).
Proof.
  unfold Net.raise_for_status, error_status. intros Hs.
  destruct (400 <=? Net.status_code r)%Z eqn:A;
    destruct (Net.status_code r <? 500)%Z eqn:B;
    destruct (500 <=? Net.status_code r)%Z eqn:C;
    destruct (Net.status_code r <? 600)%Z eqn:D;
    rewrite ?Z.leb_le, ?Z.leb_gt, ?Z.ltb_lt, ?Z.ltb_ge in *;
    cbn; eauto; lia.
Qed.

(** X18: the proxy makes exactly one call per request, a POST of the body
    (or [{}]) to [/api/anomaly/process/<actionId>], whatever comes of it; and
    it never passes an error status on: an answer of its own in 400..599 is
    its 502 or the 500 of the error handler. *)
Theorem proxy_one_call (env : environ) (AGENT_TIMEOUT_S : Z) (net : Net.Oracle)
  (trace : list Outbound) (actionId : string) (payload : Json) :
  let served :=
    Net.post_anomaly_process env AGENT_TIMEOUT_S net trace actionId payload in
  snd served = (trace ++ [action_call env AGENT_TIMEOUT_S actionId payload])%list
  /\ (error_status (status (fst served)) ->
      (exists e, fst served = Net.proxy_error e) \/ fst served = internal_error).
Proof.
  unfold Net.post_anomaly_process, Net.process_anomaly_action_proxy, Net.request.
  fold (action_call env AGENT_TIMEOUT_S actionId payload).
  destruct (net trace _) as [e | r]; cbn.
  - split; [reflexivity | intros _; left; eauto].
  - destruct (Net.raise_for_status r) as [[e | e] | []] eqn:Hraise; cbn.
    + split; [reflexivity | intros _; left; eauto].
    + split; [reflexivity | intros _; now right].
    + destruct (Net.json_result r) as [[e | e] | data]; cbn.
      * split; [reflexivity | intros _; left; eauto].
      * split; [reflexivity | intros _; now right].
      * split; [reflexivity |]. intros H.
        apply raise_for_status_ok in Hraise. contradiction.
Qed.

Lemma proxy_one_call_witness :
  (exists e,
     fst (Net.post_anomaly_process [] 60 refusing [] "a-1" JNull)
     = Net.proxy_error e)
  \/ fst (Net.post_anomaly_process [] 60 refusing [] "a-1" JNull) = internal_error.
Proof.
  apply (proj2 (proxy_one_call [] 60%Z refusing [] "a-1" JNull)).
  vm_compute. split; [discriminate | reflexivity].
Defined.

(** X19: when the gateway answers the proxy with a status outside 400..599
    and a body that decodes, the proxy answers with that same status and
    that decoded body. *)
Theorem proxy_relays (env : environ) (AGENT_TIMEOUT_S : Z) (net : Net.Oracle)
  (trace : list Outbound) (actionId : string) (payload : Json)
  (r : Net.RawResponse) (data : Json) :
  net trace (action_call env AGENT_TIMEOUT_S actionId payload) = Net.Answered r ->
  ~ error_status (Net.status_code r) ->
  Net.json_result r = inr data ->
  fst (Net.post_anomaly_process env AGENT_TIMEOUT_S net trace actionId payload)
  = mkResponse (Net.status_code r) data.
Proof.
  intros Hnet Hstatus Hjson.
  unfold Net.post_anomaly_process, Net.process_anomaly_action_proxy, Net.request.
  fold (action_call env AGENT_TIMEOUT_S actionId payload).
  rewrite Hnet. apply raise_for_status_ok in Hstatus.
  now rewrite Hstatus, Hjson.
Qed.

(** X20: a failed exchange (no connection, timeout) and an answer with a
    status in 400..599 are both answered 502 by the proxy, with
    [status: error] and the text of the exception in the message. *)
Theorem proxy_bad_gateway (env : environ) (AGENT_TIMEOUT_S : Z) (net : Net.Oracle)
  (trace : list Outbound) (actionId : string) (payload : Json) :
  let call := action_call env AGENT_TIMEOUT_S actionId payload in
  let answer :=
    fst (Net.post_anomaly_process env AGENT_TIMEOUT_S net trace actionId payload) in
  (forall e, net trace call = Net.Failed e -> answer = Net.proxy_error e)
  /\ (forall r, net trace call = Net.Answered r ->
      error_status (Net.status_code r) ->
      exists e,
        Net.raise_for_status r = inl (Net.RequestException e)
        /\ answer = Net.proxy_error e).
Proof.
  unfold Net.post_anomaly_process, Net.process_anomaly_action_proxy, Net.request.
  fold (action_call env AGENT_TIMEOUT_S actionId payload).
  split.
  - intros e ->. reflexivity.
  - intros r -> Hstatus.
    destruct (raise_for_status_raises r Hstatus) as (e & He).
    exists e. split; [exact He |]. now rewrite He.
Qed.

Lemma proxy_relays_witness :
  fst (Net.post_anomaly_process [] 60 (answering done_response) [] "a-1" JNull)
  = mkResponse 200 (JDict [("done", JBool true)]).
Proof.
  apply (proxy_relays [] 60%Z (answering done_response) [] "a-1" JNull
           done_response (JDict [("done", JBool true)])).
  - reflexivity.
  - unfold error_status. simpl. lia.
  - reflexivity.
Defined.

Lemma proxy_bad_gateway_witness :
  fst (Net.post_anomaly_process [] 60 refusing [] "a-1" JNull)
  = Net.proxy_error "timed out"
  /\ exists e,
       Net.raise_for_status missing_response = inl (Net.RequestException e)
       /\ fst (Net.post_anomaly_process [] 60 (answering missing_response) []
                 "a-1" JNull)
          = Net.proxy_error e.
Proof.
  split.
  - apply (proj1 (proxy_bad_gateway [] 60%Z refusing [] "a-1" JNull)).
    reflexivity.
  - apply (proj2 (proxy_bad_gateway [] 60%Z (answering missing_response) []
                    "a-1" JNull)).
    + reflexivity.
    + unfold error_status. simpl. lia.
Defined.



(** X22: [llm_tags] makes one GET of [/ollama/api/tags].  An answer with a
    status in 400..599 is never read: a [RequestException] is raised.
    Otherwise the body is decoded only when the [Content-Type] header
    contains [application/json]; without it, or without the header, the
    text is returned as it is and nothing is raised. *)
Theorem llm_tags_outcome (env : environ) (LLM_TIMEOUT_S : Z) (net : Net.Oracle)
  (trace : list Outbound) (r : Net.RawResponse) :
  net trace (tags_call env LLM_TIMEOUT_S) = Net.Answered r ->
  let out := Net.llm_tags env LLM_TIMEOUT_S net trace in
  snd out = (trace ++ [tags_call env LLM_TIMEOUT_S])%list
  /\ (error_status (Net.status_code r) ->
      exists e, fst out = inl (Net.RequestException e))
  /\ (~ error_status (Net.status_code r) ->
      fst out = if Net.declares_json r then Net.json_result r
                else inr (JStr (Net.text r))).
Proof.
  intros Hnet.
  unfold Net.llm_tags, Net.gw_get, Net.request.
  fold (tags_call env LLM_TIMEOUT_S). rewrite Hnet. cbn.
  destruct (Net.raise_for_status r) as [e | []] eqn:Hraise; cbn.
  - split; [reflexivity |]. split.
    + intros Hs. destruct (raise_for_status_raises r Hs) as (e' & He').
      rewrite He' in Hraise. injection Hraise as <-. eauto.
    + intros Hs. apply raise_for_status_ok in Hs. congruence.
  - split; [reflexivity |]. split.
    + intros Hs. apply raise_for_status_ok in Hraise. contradiction.
    + reflexivity.
Qed.

Lemma llm_tags_outcome_witness :
  snd (Net.llm_tags [] 30 (answering html_response) []) = [tags_call [] 30]
  /\ fst (Net.llm_tags [] 30 (answering html_response) [])
     = inr (JStr "<html></html>").
Proof.
  destruct (llm_tags_outcome [] 30%Z (answering html_response) [] html_response
              eq_refl) as (Hcalls & _ & Htext).
  split; [exact Hcalls |].
  apply Htext. unfold error_status. simpl. lia.
Defined.
